(** * Guest-scoped discovery-response proxy (mdns-reflector)

    A shallow embedding of [lib/mdns-responder.js] (class [GuestResponder]),
    of the firewall integration described in [cast_proxy_guide.md]
    ([FirewallManager.allowPair] and the Phase 4 loop of [handleQuery]) and of
    [lib/mdns-listener.js] (class [ChromecastDiscovery]), with the properties
    of the specification stated over them.

    Conventions of the embedding:
    - a JavaScript value that comes out of [JSON.parse] is a [json]; a value
      that may also be [undefined] is an [option json] ([None] is [undefined]);
    - an operation that may throw returns a [completion];
    - the handlers run in a state-and-exception monad [M] over a [world]
      holding the files, the clock, the firewall shell and the trace of
      the externally visible actions (datagrams sent, commands executed);
    - [console.log] calls are left out: they neither throw nor change what
      is sent. *)

From stdpp Require Import gmap strings list fin_maps.
From Stdlib Require Import ZArith Ascii DecimalString.

#[local] Open Scope string_scope.
#[local] Set Warnings "-register-all".

(** ** The JavaScript values and operators the program uses *)

Module JS.

Inductive json : Type :=
| JNull
| JBool (b : bool)
| JNum (n : Z)
| JStr (s : string)
| JArr (elems : list json)
| JObj (props : gmap string json).

(** JSON numbers are represented by integers; the stores of this program
    hold none (rooms, addresses, identifiers and timestamps are strings). *)

Abbreviation value := (option json).

Definition null : value := Some JNull.

Inductive completion (A : Type) : Type :=
| Normal (a : A)
| Throw.
Arguments Normal {A} a.
Arguments Throw {A}.

#[export] Instance completion_ret : MRet completion := λ A a, Normal a.
#[export] Instance completion_bind : MBind completion := λ A B f c,
  match c with
  | Normal a => f a
  | Throw => Throw
  end.

(** [ToBoolean]: [!v] is [negb (truthy v)]. *)
Definition truthy (v : value) : bool :=
  match v with
  | None => false
  | Some JNull => false
  | Some (JBool b) => b
  | Some (JNum n) => negb (n =? 0)%Z
  | Some (JStr s) => negb (String.eqb s "")
  | Some (JArr _) | Some (JObj _) => true
  end.

(** [Number.prototype.toString] on an integer (below 10^21 in absolute
    value, where JavaScript prints plain decimal digits). *)
Definition Number_toString (n : Z) : string :=
  NilZero.string_of_int (Z.to_int n).

(** Own enumerable properties: what an object spread [{...v}] copies. *)
Definition indexed (l : list json) : gmap string json :=
  list_to_map (imap (λ i x, (Number_toString (Z.of_nat i), x)) l).

Definition chars (s : string) : list json :=
  List.map (λ c, JStr (String c EmptyString)) (String.list_ascii_of_string s).

Definition own_props (v : value) : gmap string json :=
  match v with
  | Some (JObj m) => m
  | Some (JArr l) => indexed l
  | Some (JStr s) => indexed (chars s)
  | _ => ∅
  end.

(** Property read [v.k] / [v[k]]. Reading a property of [null] or
    [undefined] throws a TypeError. Only own data properties are modelled:
    the keys this program reads are dotted-quad addresses and the field
    names [room], [expires_at], [uuid], [friendly_name] and [ip], none of
    which names a member of a built-in prototype. *)
Definition get (v : value) (k : string) : completion value :=
  match v with
  | None | Some JNull => Throw
  | Some (JObj m) => Normal (m !! k)
  | Some (JArr l) =>
      if String.eqb k "length" then Normal (Some (JNum (Z.of_nat (length l))))
      else Normal (indexed l !! k)
  | Some (JStr s) =>
      if String.eqb k "length" then Normal (Some (JNum (Z.of_nat (String.length s))))
      else Normal (indexed (chars s) !! k)
  | Some (JBool _) | Some (JNum _) => Normal None
  end.

(** Strict equality [a === b]. Arrays and objects compare by identity; in
    this program the two operands always come from two different
    [JSON.parse] results (or one of them is a string), so two arrays or
    objects are never identical. *)
Definition strict_eq (a b : value) : bool :=
  match a, b with
  | None, None => true
  | Some JNull, Some JNull => true
  | Some (JBool x), Some (JBool y) => Bool.eqb x y
  | Some (JNum x), Some (JNum y) => (x =? y)%Z
  | Some (JStr x), Some (JStr y) => String.eqb x y
  | _, _ => false
  end.

(** [ToString], as applied by a template literal [`${v}`]. *)
Fixpoint ToString_json (j : json) : string :=
  match j with
  | JNull => "null"
  | JBool true => "true"
  | JBool false => "false"
  | JNum n => Number_toString n
  | JStr s => s
  | JArr l =>
      String.concat ","
        (List.map (λ e, match e with JNull => "" | _ => ToString_json e end) l)
  | JObj _ => "[object Object]"
  end.

Definition ToString (v : value) : string :=
  match v with
  | None => "undefined"
  | Some j => ToString_json j
  end.

(** [s.replace(/-/g, '')] *)
Fixpoint remove_dashes (s : string) : string :=
  match s with
  | EmptyString => EmptyString
  | String c r =>
      if Ascii.eqb c "-"%char then remove_dashes r else String c (remove_dashes r)
  end.

(** [s.replace(pat, '')] with a string pattern: the first occurrence of
    [pat] is removed. *)
Fixpoint remove_first (pat s : string) : string :=
  if String.prefix pat s then String.substring (String.length pat) (String.length s - String.length pat) s
  else match s with
       | EmptyString => EmptyString
       | String c r => String c (remove_first pat r)
       end.

(** [l.join(sep)] on an array of strings. *)
Definition join (sep : string) (l : list string) : string := String.concat sep l.

(** Time values: milliseconds since the epoch, [None] for NaN (an Invalid
    Date). *)
Definition TimeClip (t : Z) : option Z :=
  if (Z.abs t <=? 8640000000000000)%Z then Some t else None.

(** [a < b] on two Date objects compares their time values; a comparison
    with NaN is false. *)
Definition Date_lt (a b : option Z) : bool :=
  match a, b with
  | Some x, Some y => (x <? y)%Z
  | _, _ => false
  end.

End JS.
Import JS.

(** ** The messages of the DNS codec (package dns-packet) *)

Record question := { q_name : string; q_type : string; q_class : string }.

(** A decoded datagram; [questions] is read with [?.] by the handler. *)
Record packet := {
  p_id : Z;
  p_type : string;
  questions : option (list question)
}.

Inductive rdata : Type :=
| RName (target : string)
| RBuffer (bytes : string)
| RSrv (priority weight port : Z) (target : string)
| RAddress (host : value).

Record answer := {
  r_type : string;
  r_class : string;
  r_name : string;
  r_ttl : Z;
  r_data : rdata
}.

Record message := {
  m_type : string;
  m_id : Z;
  m_flags : Z;
  m_questions : list question;
  m_answers : list answer;
  m_additionals : list answer
}.

(** What the program takes from its platform: the wire codec of dns-packet
    ([None] when it throws) and the text forms of [Date]. *)
Class Platform := {
  Buffer : Type;
  dns_decode : Buffer → option packet;
  dns_encode : message → option Buffer;
  Date_parse : string → option Z;
  toISOString : Z → string
}.

(** A file holds a JSON document, given by the value [JSON.parse] makes of
    it, or text that [JSON.parse] rejects. A path without a file, or with a
    file that cannot be read, is absent from the map. *)
Inductive file : Type :=
| Json (doc : json)
| Text (raw : string).

Definition JSON_parse (f : file) : completion json :=
  match f with
  | Json j => Normal j
  | Text _ => Throw
  end.

Definition JSON_stringify (j : json) : file := Json j.

(** The device description a receiver serves at
    [http://ip:8008/ssdp/device-desc.xml], after [xml2js]: the text of the
    first [UDN] and [friendlyName] elements of [root.device[0]]. *)
Record description := { UDN : string; friendlyName : string }.

(** ** The world of the handlers *)

Section World.
Context {Buffer : Type}.

(** Externally visible actions. *)
Inductive event : Type :=
| Send (payload : Buffer) (port : Z) (address : string)
| Exec (command : string).

Record world := {
  files : gmap string file;
  writable : string → bool;
  clock : Z;
  http : gmap string description;
  shell : string → bool;
  trace : list event
}.

Definition set_files (fs : gmap string file) (w : world) : world :=
  {| files := fs; writable := writable w; clock := clock w; http := http w;
     shell := shell w; trace := trace w |}.

Definition add_events (evs : list event) (w : world) : world :=
  {| files := files w; writable := writable w; clock := clock w; http := http w;
     shell := shell w; trace := trace w ++ evs |}.

Definition add_event (e : event) (w : world) : world := add_events [e] w.

(** The events a computation appends to the trace of [w]. *)
Definition emitted {A} (m : world → A * world) (w : world) : list event :=
  drop (length (trace w)) (trace (m w).2).

(** The world at another time of the clock. *)
Definition at_time (t : Z) (w : world) : world :=
  {| files := files w; writable := writable w; clock := t; http := http w;
     shell := shell w; trace := trace w |}.

End World.

Arguments event : clear implicits.
Arguments world : clear implicits.

Section Program.
Context `{Platform}.

(** [new Date(v)] for a value read from JSON. *)
Definition new_Date (v : value) : option Z :=
  match v with
  | None => None
  | Some (JStr s) => Date_parse s
  | Some (JArr l) => Date_parse (ToString (Some (JArr l)))
  | Some (JObj m) => Date_parse (ToString (Some (JObj m)))
  | Some JNull => TimeClip 0
  | Some (JBool b) => TimeClip (if b then 1 else 0)
  | Some (JNum n) => TimeClip n
  end.

(** *** The monad of the handlers *)

Definition M (A : Type) : Type := world Buffer → completion A * world Buffer.

#[export] Instance M_ret : MRet M := λ A a w, (Normal a, w).
#[export] Instance M_bind : MBind M := λ A B f m w,
  match m w with
  | (Normal a, w') => f a w'
  | (Throw, w') => (Throw, w')
  end.

Definition lift {A} (c : completion A) : M A := λ w, (c, w).

(** [try { body } catch (error) { handler }] *)
Definition try_catch {A} (body handler : M A) : M A := λ w,
  match body w with
  | (Normal a, w') => (Normal a, w')
  | (Throw, w') => handler w'
  end.

(** [for (const x of l) { body }] *)
Fixpoint for_of {A} (l : list A) (body : A → M unit) : M unit :=
  match l with
  | [] => mret tt
  | x :: rest => _ ← body x; for_of rest body
  end.

(** [fs.readFile(path, 'utf8')] *)
Definition readFile (path : string) : M file := λ w,
  match files w !! path with
  | Some f => (Normal f, w)
  | None => (Throw, w)
  end.

(** [fs.writeFile(path, data)] *)
Definition writeFile (path : string) (data : file) : M unit := λ w,
  if writable w path then (Normal tt, set_files (<[path := data]> (files w)) w)
  else (Throw, w).

(** [new Date()]: the time value of the clock. *)
Definition Date_now : M (option Z) := λ w, (Normal (Some (clock w)), w).

(** [this.socket.send(msg, port, address)] *)
Definition socket_send (msg : Buffer) (port : Z) (address : string) : M unit :=
  λ w, (Normal tt, add_event (Send msg port address) w).

(** [execPromise(command)]: the command is run; the promise rejects when
    the shell reports a failure. *)
Definition execPromise (command : string) : M unit := λ w,
  (if shell w command then Normal tt else Throw, add_event (Exec command) w).

(** [arr.filter(pred)]; calling [filter] on anything but an array throws. *)
Fixpoint filterM (pred : json → completion bool) (l : list json)
  : completion (list json) :=
  match l with
  | [] => Normal []
  | d :: rest =>
      match pred d with
      | Throw => Throw
      | Normal b =>
          match filterM pred rest with
          | Throw => Throw
          | Normal ds => Normal (if b then d :: ds else ds)
          end
      end
  end.

Definition Array_filter (arr : json) (pred : json → completion bool)
  : completion (list json) :=
  match arr with
  | JArr l => filterM pred l
  | _ => Throw
  end.

(** ** lib/mdns-responder.js: class GuestResponder *)

(** The [rinfo] argument of the socket's [message] event. *)
Record rinfo := { address : string; family : string; port : Z; size : Z }.

Definition pairingsFile : string := "data/pairings.json".
Definition devicesFile : string := "data/devices.json".

(** The multicast group the socket joins in [start]. *)
Definition MDNS_GROUP : string := "224.0.0.251".

(** [packet.questions?.some(q => q.name === '_googlecast._tcp.local' &&
    q.type === 'PTR')]; [undefined] when there is no [questions]. *)
Definition isGoogleCast (p : packet) : bool :=
  match questions p with
  | None => false
  | Some qs =>
      existsb (λ q, String.eqb (q_name q) "_googlecast._tcp.local"
                    && String.eqb (q_type q) "PTR") qs
  end.

Definition getRoomForGuest (guestIP : string) : M value :=
  try_catch
    (data ← readFile pairingsFile;
     pairings ← lift (JSON_parse data);
     pairing ← lift (get (Some pairings) guestIP);
     if negb (truthy pairing) then mret null else
     expires_at ← lift (get pairing "expires_at");
     now ← Date_now;
     if Date_lt (new_Date expires_at) now then mret null else
     lift (get pairing "room"))
    (mret null).

Definition getDevicesForRoom (room : value) : M (list json) :=
  try_catch
    (data ← readFile devicesFile;
     devices ← lift (JSON_parse data);
     lift (Array_filter devices
             (λ d, r ← get (Some d) "room"; Normal (strict_eq r room))))
    (mret []).

(** [`Chromecast-${device.uuid.replace(/-/g, '')}`]; only a string has a
    [replace] method. *)
Definition instanceName (device : json) : completion string :=
  uuid ← get (Some device) "uuid";
  match uuid with
  | Some (JStr s) => Normal ("Chromecast-" +:+ remove_dashes s)
  | _ => Throw
  end.

Definition NUL : string := String (ascii_of_nat 0) EmptyString.

(** The object literal [buildResponse] hands to [dns.encode]. *)
Definition response_message (instanceName : string) (device : json)
  : completion message :=
  uuid ← get (Some device) "uuid";
  friendly_name ← get (Some device) "friendly_name";
  ip ← get (Some device) "ip";
  Normal
    {| m_type := "response";
       m_id := 0;
       m_flags := 0x8400;
       m_questions := [];
       m_answers :=
         [ {| r_type := "PTR"; r_class := "IN";
              r_name := "_googlecast._tcp.local"; r_ttl := 120;
              r_data := RName (instanceName +:+ "._googlecast._tcp.local") |} ];
       m_additionals :=
         [ {| r_type := "TXT"; r_class := "IN";
              r_name := instanceName +:+ "._googlecast._tcp.local"; r_ttl := 120;
              r_data :=
                RBuffer (join NUL [ "id=" +:+ ToString uuid;
                                    "fn=" +:+ ToString friendly_name;
                                    "md=Chromecast";
                                    "ve=05";
                                    "ic=/setup/icon.png" ]) |};
           {| r_type := "SRV"; r_class := "IN";
              r_name := instanceName +:+ "._googlecast._tcp.local"; r_ttl := 120;
              r_data := RSrv 0 0 8009 (instanceName +:+ ".local") |};
           {| r_type := "A"; r_class := "IN";
              r_name := instanceName +:+ ".local"; r_ttl := 120;
              r_data := RAddress ip |} ] |}.

Definition buildResponse (device : json) : completion Buffer :=
  instanceName ← instanceName device;
  msg ← response_message instanceName device;
  match dns_encode msg with
  | Some buf => Normal buf
  | None => Throw
  end.

Definition handleQuery (msg : Buffer) (rinfo : rinfo) : M unit :=
  packet ← lift (match dns_decode msg with
                 | Some p => Normal p
                 | None => Throw
                 end);
  if negb (isGoogleCast packet) then mret tt else
  let guestIP := address rinfo in
  room ← getRoomForGuest guestIP;
  if negb (truthy room) then mret tt else
  devices ← getDevicesForRoom room;
  for_of devices (λ device,
    response ← lift (buildResponse device);
    socket_send response (port rinfo) guestIP).

(** The [message] listener installed by [start]: an error of the handler
    is caught and logged. *)
Definition on_message (msg : Buffer) (rinfo : rinfo) : M unit :=
  try_catch (handleQuery msg rinfo) (mret tt).

(** ** The firewall integration of the guide (Phase 4) *)

(** The command of [allowPair], a template literal over the pair and the
    lifetime in minutes. *)
Definition nft_add_element (pair : string) (ttlMinutes : Z) : string :=
  "
        nft add element inet filter cast_allowed_pairs { " +:+ pair
  +:+ " timeout " +:+ Number_toString ttlMinutes +:+ "m }
      ".

(** [FirewallManager.allowPair(guestIP, chromecastIP, ttlMinutes = 15)]:
    [true] when the rule was added, [false] when the command failed. *)
Definition allowPair (guestIP : string) (chromecastIP : value) (ttlMinutes : Z)
  : M bool :=
  let pair := guestIP +:+ " . " +:+ ToString chromecastIP in
  try_catch
    (_ ← execPromise (nft_add_element pair ttlMinutes); mret true)
    (mret false).

(** [handleQuery] with the loop of "Integrate into mdns-responder.js":
    the existing code up to the loop, then, for each device, the send
    followed by [await this.firewall.allowPair(guestIP, device.ip, 15)]. *)
Definition handleQuery_firewall (msg : Buffer) (rinfo : rinfo) : M unit :=
  packet ← lift (match dns_decode msg with
                 | Some p => Normal p
                 | None => Throw
                 end);
  if negb (isGoogleCast packet) then mret tt else
  let guestIP := address rinfo in
  room ← getRoomForGuest guestIP;
  if negb (truthy room) then mret tt else
  devices ← getDevicesForRoom room;
  for_of devices (λ device,
    response ← lift (buildResponse device);
    _ ← socket_send response (port rinfo) guestIP;
    ip ← lift (get (Some device) "ip");
    _ ← allowPair guestIP ip 15;
    mret tt).

(** ** lib/mdns-listener.js: class ChromecastDiscovery *)

(** [fetchDeviceInfo(ip)]: the request or the parse of the description may
    fail, which rejects the promise. *)
Definition fetchDeviceInfo (ip : string) : M json := λ w,
  match http w !! ip with
  | None => (Throw, w)
  | Some device =>
      (Normal (JObj {[ "uuid" := JStr (remove_first "uuid:" (UDN device));
                       "friendly_name" := JStr (friendlyName device);
                       "ip" := JStr ip;
                       "last_seen" := JStr (toISOString (clock w));
                       "room" := JNull ]}), w)
  end.

(** [arr.findIndex(pred)]; [None] stands for the result -1. *)
Fixpoint findIndex_from (pred : json → completion bool) (l : list json) (i : nat)
  : completion (option nat) :=
  match l with
  | [] => Normal None
  | d :: rest =>
      match pred d with
      | Throw => Throw
      | Normal true => Normal (Some i)
      | Normal false => findIndex_from pred rest (S i)
      end
  end.

Definition Array_findIndex (arr : json) (pred : json → completion bool)
  : completion (option nat) :=
  match arr with
  | JArr l => findIndex_from pred l 0
  | _ => Throw
  end.

(** [{ ...a, ...b }]: the properties of [a], overridden by those of [b]. *)
Definition spread (a b : value) : json := JObj (own_props b ∪ own_props a).

Definition saveDevice (deviceInfo : json) : M unit :=
  devices ← try_catch
              (data ← readFile devicesFile; lift (JSON_parse data))
              (mret (JArr []));
  index ← lift (Array_findIndex devices
                  (λ d, a ← get (Some d) "uuid";
                        b ← get (Some deviceInfo) "uuid";
                        Normal (strict_eq a b)));
  devices ← lift (match devices, index with
                  | JArr l, Some i =>
                      Normal (JArr (<[i := spread (l !! i) (Some deviceInfo)]> l))
                  | JArr l, None => Normal (JArr (l ++ [deviceInfo]))
                  | _, _ => Throw
                  end);
  writeFile devicesFile (JSON_stringify devices).

(** The listener of the browser's [up] event, for a service announcing
    [addresses]. *)
Definition on_up (addresses : list string) : M unit :=
  let ip := match List.find (String.prefix "192.168.25.") addresses with
            | Some a => Some a
            | None => head addresses
            end in
  match ip with
  | None => mret tt
  | Some ip =>
      if String.eqb ip "" then mret tt else
      try_catch
        (deviceInfo ← fetchDeviceInfo ip; saveDevice deviceInfo)
        (mret tt)
  end.

(** ** Vocabulary of the specification *)

(** [d.room === room]: the device belongs to the room. *)
Definition in_room (room : value) (d : json) : bool :=
  match get (Some d) "room" with
  | Normal r => strict_eq r room
  | Throw => false
  end.

(** A response can be built for the record: it has a string [uuid] and
    [dns.encode] accepts the message made from it. *)
Definition answerable (d : json) : Prop := ∃ buf, buildResponse d = Normal buf.

(** The datagram goes to the address and port the query came from. *)
Definition to_requester (ri : rinfo) (e : event Buffer) : Prop :=
  match e with
  | Send _ p a => p = port ri ∧ a = address ri
  | Exec _ => True
  end.

(** The datagram goes to the multicast group. *)
Definition to_group (e : event Buffer) : Prop :=
  match e with
  | Send _ _ a => a = MDNS_GROUP
  | Exec _ => False
  end.

Definition is_send (e : event Buffer) : bool :=
  match e with
  | Send _ _ _ => true
  | Exec _ => false
  end.

(** The reasons for which a guest address is not authorized at the time
    of the query: the pairing store cannot be read or parsed, it has no
    record for the address, or the record's expiry is earlier than the
    clock. *)
Inductive unauthorized (w : world Buffer) (guestIP : string) : Prop :=
| store_unreadable :
    files w !! pairingsFile = None → unauthorized w guestIP
| store_unparsable raw :
    files w !! pairingsFile = Some (Text raw) → unauthorized w guestIP
| no_record pairings :
    files w !! pairingsFile = Some (Json (JObj pairings)) →
    pairings !! guestIP = None → unauthorized w guestIP
| expired pairings pairing expires_at t :
    files w !! pairingsFile = Some (Json (JObj pairings)) →
    pairings !! guestIP = Some pairing →
    get (Some pairing) "expires_at" = Normal expires_at →
    new_Date expires_at = Some t →
    (t < clock w)%Z → unauthorized w guestIP.

(** The reasons for which a room has no device to answer for: the device
    registry cannot be read or parsed, or none of its entries is in the
    room. *)
Inductive no_devices (w : world Buffer) (room : value) : Prop :=
| registry_unreadable :
    files w !! devicesFile = None → no_devices w room
| registry_unparsable raw :
    files w !! devicesFile = Some (Text raw) → no_devices w room
| registry_no_match registry :
    files w !! devicesFile = Some (Json (JArr registry)) →
    Forall (λ d, in_room room d = false) registry → no_devices w room.

(** What the Phase 4 loop does for one device: the response, then the
    request for the firewall rule of the pair (guest address, device
    address) with a lifetime of 15 minutes. *)
Definition served (ri : rinfo) (d : json) : list (event Buffer) :=
  match buildResponse d, get (Some d) "ip" with
  | Normal buf, Normal ip =>
      [ Send buf (port ri) (address ri);
        Exec (nft_add_element (address ri +:+ " . " +:+ ToString ip) 15) ]
  | _, _ => []
  end.

(** Where the hyphens of an identifier stand. *)
Fixpoint hyphen_layout (s : string) : list bool :=
  match s with
  | EmptyString => []
  | String c r => Ascii.eqb c "-"%char :: hyphen_layout r
  end.

(** Relevance in the words of the specification: some question asks for
    a PTR record under a name that matches the service name without
    regard to case. *)
Definition to_lower (c : ascii) : ascii :=
  let n := nat_of_ascii c in
  if (65 <=? n)%nat && (n <=? 90)%nat then ascii_of_nat (n + 32) else c.

Fixpoint lower (s : string) : string :=
  match s with
  | EmptyString => EmptyString
  | String c r => String (to_lower c) (lower r)
  end.

Definition relevant_ignoring_case (p : packet) : bool :=
  match questions p with
  | None => false
  | Some qs =>
      existsb (λ q, String.eqb (lower (q_name q)) (lower "_googlecast._tcp.local")
                    && String.eqb (q_type q) "PTR") qs
  end.

End Program.

(** ** Vocabulary for the registry of devices *)

(** The [uuid] of a record, when it is a string. *)
Definition uuid_key (d : json) : option string :=
  match get (Some d) "uuid" with
  | Normal (Some (JStr u)) => Some u
  | _ => None
  end.

(** [d.uuid === deviceInfo.uuid], the test of [saveDevice]. *)
Definition same_uuid (deviceInfo d : json) : completion bool :=
  a ← get (Some d) "uuid";
  b ← get (Some deviceInfo) "uuid";
  Normal (strict_eq a b).

(** Every entry has a string [uuid], and no two entries share one. *)
Definition keyed (l : list json) : Prop :=
  Forall (λ d, is_Some (uuid_key d)) l ∧ NoDup (List.map uuid_key l).

(** The devices a guest of the room would be answered for. *)
Definition devices_seen `{Platform} (room : value) (w : world Buffer) : list json :=
  match (getDevicesForRoom room w).1 with
  | Normal ds => ds
  | Throw => []
  end.

(** The registry held by the devices file, when it is an array. *)
Definition registry_of (fs : gmap string file) : option (list json) :=
  match fs !! devicesFile with
  | Some (Json (JArr l)) => Some l
  | _ => None
  end.

(** ** The pairing API (the express application)

    The handlers of [POST /api/rooms/:room/pairing-token] and of
    [GET /pair]. A handler returns the response it sends; a handler that
    throws sends none (the promise of an [async] handler is not observed
    by express). The module is not in strict mode. *)

(** What the API takes from its deployment: the two paths computed by
    [path.join(projectRoot, 'data', ...)], the built-in prototypes
    ([inherited o k]: a read [o[k]] of a key that is no own property of [o]
    finds a member on the prototype chain of [o]) and the QR code
    renderer. *)
Class Deployment := {
  tokensFile : string;
  server_pairingsFile : string;
  inherited : json → string → bool;
  QRCode_toDataURL : string → completion string
}.

(** The result of a read [o[k]] on a value parsed from JSON. *)
Inductive found : Type :=
| Own (v : json)
| Inherited
| Missing.

Inductive body : Type :=
| Plain (text : string)
| Page (room : value)
| JsonBody (doc : json).

(** [Page room] stands for the HTML page "Pairing Successful!" of the
    source, in which [room] is interpolated. *)
Record response := { res_status : Z; res_body : body }.

(** The parts of the request that [GET /pair] reads: [req.query.token],
    [req.headers['x-forwarded-for']] and the remote address of the socket
    ([req.connection] and [req.socket] are the same object). *)
Record pair_request := {
  query_token : value;
  x_forwarded_for : option string;
  remoteAddress : option string
}.

(** [ToString(ToUint32(k)) === k], below 2^32 - 1: [k] is an array index. *)
Definition array_index (k : string) : option nat :=
  match NilZero.int_of_string k with
  | Some i =>
      let n := Z.of_int i in
      if String.eqb (Number_toString n) k && (0 <=? n)%Z && (n <? 4294967295)%Z
      then Some (Z.to_nat n)
      else None
  | None => None
  end.

(** [o[k] = v], as [JSON.stringify] sees [o] afterwards. Assigning to a
    property of [null] throws; on a boolean, number or string the
    assignment is dropped; [__proto__] sets the prototype unless the object
    has an own property of that name; on an array an index beyond the end
    leaves holes (written out as [null]), [length] throws a RangeError for
    an object value, and any other key is a property the output leaves
    out. *)
Definition assign (o : json) (k : string) (v : json) : completion json :=
  match o with
  | JNull => Throw
  | JBool _ | JNum _ | JStr _ => Normal o
  | JObj m =>
      if String.eqb k "__proto__" && negb (bool_decide (is_Some (m !! k)))
      then Normal (JObj m)
      else Normal (JObj (<[k := v]> m))
  | JArr l =>
      if String.eqb k "__proto__" then Normal (JArr l)
      else if String.eqb k "length" then Throw
      else match array_index k with
           | Some i =>
               if (i <? length l)%nat then Normal (JArr (<[i := v]> l))
               else Normal (JArr (l ++ replicate (i - length l) JNull ++ [v]))
           | None => Normal (JArr l)
           end
  end.

(** [with_field k v m]: a property of an object literal, which
    [JSON.stringify] leaves out when its value is [undefined]. *)
Definition with_field (k : string) (v : value) (m : gmap string json)
  : gmap string json :=
  match v with
  | Some j => <[k := j]> m
  | None => m
  end.

Definition reply (code : Z) (b : body) : response :=
  {| res_status := code; res_body := b |}.

Section Server.
Context `{Platform} `{Deployment}.

(** [o[k]] *)
Definition lookup (o : json) (k : string) : completion found :=
  v ← get (Some o) k;
  match v with
  | Some j => Normal (Own j)
  | None => Normal (if inherited o k then Inherited else Missing)
  end.

(** [!f] is [negb (truthy_found f)]: an inherited member is a function or
    a prototype object. *)
Definition truthy_found (f : found) : bool :=
  match f with
  | Own j => truthy (Some j)
  | Inherited => true
  | Missing => false
  end.

(** [f.k], for the keys [expires_at] and [room], which no built-in
    function or prototype has. *)
Definition field_of (f : found) (k : string) : completion value :=
  match f with
  | Own j => get (Some j) k
  | Inherited => Normal None
  | Missing => Throw
  end.

(** [o[k]] read again after [o[k] = v]. *)
Definition read_back (o : json) (k : string) (v : json) : completion found :=
  match o with
  | JObj _ | JArr _ => Normal (Own v)
  | _ => lookup o k
  end.

(** [Date.now()] *)
Definition Date_dot_now : M Z := λ w, (Normal (clock w), w).

(** [d.toISOString()], a RangeError on an Invalid Date. *)
Definition Date_toISOString (t : option Z) : completion string :=
  match t with
  | Some t => Normal (toISOString t)
  | None => Throw
  end.

(** [req.headers['x-forwarded-for'] || req.connection.remoteAddress ||
    req.socket.remoteAddress], then without a leading [::ffff:];
    [startsWith] throws on [undefined]. *)
Definition guest_address (req : pair_request) : completion string :=
  let guestIP :=
    match x_forwarded_for req with
    | Some h => if String.eqb h "" then remoteAddress req else Some h
    | None => remoteAddress req
    end in
  match guestIP with
  | None => Throw
  | Some g =>
      Normal (if String.prefix "::ffff:" g
              then String.substring 7 (String.length g - 7) g
              else g)
  end.

(** [app.post('/api/rooms/:room/pairing-token', ...)]; [token] is the
    value of [crypto.randomBytes(16).toString('hex')]. *)
Definition pairing_token (room token : string) : M response :=
  tokens ← try_catch
             (data ← readFile tokensFile; lift (JSON_parse data))
             (mret (JObj ∅));
  now ← Date_now;
  created_at ← lift (Date_toISOString now);
  ms ← Date_dot_now;
  expires_at ← lift (Date_toISOString (TimeClip (ms + 15 * 60 * 1000)));
  let entry := JObj {[ "room" := JStr room;
                       "created_at" := JStr created_at;
                       "expires_at" := JStr expires_at ]} in
  tokens' ← lift (assign tokens token entry);
  _ ← writeFile tokensFile (JSON_stringify tokens');
  let pairingURL := "http://192.168.20.1:3000/pair?token=" +:+ token in
  qrImage ← lift (QRCode_toDataURL pairingURL);
  stored ← lift (read_back tokens token entry);
  stored_expires_at ← lift (field_of stored "expires_at");
  mret (reply 200
          (JsonBody (JObj (with_field "expires_at" stored_expires_at
                             {[ "room" := JStr room;
                                "pairing_url" := JStr pairingURL;
                                "qr_image" := JStr qrImage ]})))).

(** [app.get('/pair', ...)] *)
Definition pair (req : pair_request) : M response :=
  let token := query_token req in
  guestIP ← lift (guest_address req);
  tokens ← try_catch
             (data ← readFile tokensFile;
              j ← lift (JSON_parse data);
              mret (Some j))
             (mret None);
  match tokens with
  | None => mret (reply 500 (Plain "Server error"))
  | Some tokens =>
      tokenData ← lift (lookup tokens (ToString token));
      if negb (truthy_found tokenData)
      then mret (reply 400 (Plain "❌ Invalid pairing code")) else
      token_expires_at ← lift (field_of tokenData "expires_at");
      now ← Date_now;
      if Date_lt (new_Date token_expires_at) now
      then mret (reply 400
                   (Plain "❌ Pairing code expired. Please scan a new QR code."))
      else
      pairings ← try_catch
                   (data ← readFile server_pairingsFile; lift (JSON_parse data))
                   (mret (JObj ∅));
      room ← lift (field_of tokenData "room");
      now ← Date_now;
      paired_at ← lift (Date_toISOString now);
      ms ← Date_dot_now;
      expires_at ← lift (Date_toISOString (TimeClip (ms + 12 * 60 * 60 * 1000)));
      let record := JObj (with_field "room" room
                            (with_field "token_used" token
                               {[ "paired_at" := JStr paired_at;
                                  "expires_at" := JStr expires_at ]})) in
      pairings' ← lift (assign pairings guestIP record);
      _ ← writeFile server_pairingsFile (JSON_stringify pairings');
      stored ← lift (read_back pairings guestIP record);
      _ ← lift (field_of stored "expires_at");
      mret (reply 200 (Page room))
  end.

(** The value [GET /pair] starts from for the pairings: the document of
    the file, or an empty object when the file cannot be read or parsed. *)
Definition pairings_of (fs : gmap string file) : json :=
  match fs !! server_pairingsFile with
  | Some (Json j) => j
  | _ => JObj ∅
  end.

(** The value the token endpoint starts from for the tokens. *)
Definition tokens_of (fs : gmap string file) : json :=
  match fs !! tokensFile with
  | Some (Json j) => j
  | _ => JObj ∅
  end.

(** The record [GET /pair] files for a guest at time [now]. *)
Definition pairing_record (room token : value) (now : Z) : json :=
  JObj (with_field "room" room
          (with_field "token_used" token
             {[ "paired_at" := JStr (toISOString now);
                "expires_at" := JStr (toISOString (now + 43200000)) ]})).

(** The entry the token endpoint files for a room at time [now]. *)
Definition token_entry (room : string) (now : Z) : json :=
  JObj {[ "room" := JStr room;
          "created_at" := JStr (toISOString now);
          "expires_at" := JStr (toISOString (now + 900000)) ]}.

(** The time value is in the range of [Date]. *)
Definition valid_time (t : Z) : Prop := (Z.abs t <= 8640000000000000)%Z.

End Server.

(** ** A concrete platform, for the scenarios

    The wire format is kept symbolic: a datagram is the query it decodes
    to, the response it was encoded from, or noise that does not decode.
    [Date_parse] and [toISOString] are those of JavaScript on the
    timestamps this program writes ([YYYY-MM-DDTHH:mm:ss.sssZ], and the
    form without milliseconds used by the guide); every other string is
    taken as an Invalid Date. *)

Module Scenario.

Inductive wire : Type :=
| Query (p : packet)
| Response (m : message)
| Noise.

Definition decode (b : wire) : option packet :=
  match b with
  | Query p => Some p
  | Response m =>
      Some {| p_id := m_id m; p_type := m_type m;
              questions := Some (m_questions m) |}
  | Noise => None
  end.

Definition encode (m : message) : option wire := Some (Response m).

#[local] Open Scope Z_scope.

Definition digit (c : ascii) : option Z :=
  let n := Z.of_nat (nat_of_ascii c) in
  if (48 <=? n) && (n <=? 57) then Some (n - 48) else None.

Fixpoint digits (acc : Z) (cs : list ascii) : option Z :=
  match cs with
  | [] => Some acc
  | c :: rest =>
      match digit c with
      | Some d => digits (10 * acc + d) rest
      | None => None
      end
  end.

(** The number written at [len] characters from position [start]. *)
Definition field (s : string) (start len : nat) : option Z :=
  let t := String.substring start len s in
  if Nat.eqb (String.length t) len
  then digits 0 (String.list_ascii_of_string t)
  else None.

Definition is_char (s : string) (i : nat) (c : ascii) : bool :=
  match String.get i s with
  | Some c' => Ascii.eqb c c'
  | None => false
  end.

Definition leap (y : Z) : bool :=
  ((y mod 4 =? 0) && negb (y mod 100 =? 0)) || (y mod 400 =? 0).

Definition days_in_month (y m : Z) : Z :=
  if m =? 2 then (if leap y then 29 else 28)
  else if (m =? 4) || (m =? 6) || (m =? 9) || (m =? 11) then 30
  else 31.

(** Days from 1970-01-01 to the civil date [y-m-d]. *)
Definition days_from_civil (y m d : Z) : Z :=
  let y' := if m <=? 2 then y - 1 else y in
  let era := y' / 400 in
  let yoe := y' - era * 400 in
  let doy := (153 * (if 2 <? m then m - 3 else m + 9) + 2) / 5 + d - 1 in
  let doe := yoe * 365 + yoe / 4 - yoe / 100 + doy in
  era * 146097 + doe - 719468.

Definition make_time (y mo d h mi sec ms : Z) : option Z :=
  if (1 <=? mo) && (mo <=? 12) && (1 <=? d) && (d <=? days_in_month y mo)
     && (h <=? 23) && (mi <=? 59) && (sec <=? 59)
  then Some ((((days_from_civil y mo d * 24 + h) * 60 + mi) * 60 + sec) * 1000 + ms)
  else None.

Definition iso_parse (s : string) : option Z :=
  if is_char s 4 "-" && is_char s 7 "-" && is_char s 10 "T"
     && is_char s 13 ":" && is_char s 16 ":"
  then
    y ← field s 0 4; mo ← field s 5 2; d ← field s 8 2;
    h ← field s 11 2; mi ← field s 14 2; sec ← field s 17 2;
    if Nat.eqb (String.length s) 20 && is_char s 19 "Z"
    then make_time y mo d h mi sec 0
    else if Nat.eqb (String.length s) 24 && is_char s 19 "." && is_char s 23 "Z"
    then ms ← field s 20 3; make_time y mo d h mi sec ms
    else None
  else None.

(** The civil date of a day number, as (year, month, day). *)
Definition civil_from_days (z : Z) : Z * Z * Z :=
  let z := z + 719468 in
  let era := z / 146097 in
  let doe := z - era * 146097 in
  let yoe := (doe - doe / 1460 + doe / 36524 - doe / 146096) / 365 in
  let doy := doe - (365 * yoe + yoe / 4 - yoe / 100) in
  let mp := (5 * doy + 2) / 153 in
  let d := doy - (153 * mp + 2) / 5 + 1 in
  let m := if mp <? 10 then mp + 3 else mp - 9 in
  (yoe + era * 400 + (if m <=? 2 then 1 else 0), m, d).

(** [n] in decimal, padded with zeros to [width] digits. *)
Fixpoint pad (width : nat) (n : Z) : string :=
  match width with
  | O => EmptyString
  | S k => pad k (n / 10) +:+ String (ascii_of_nat (48 + Z.to_nat (n mod 10))) EmptyString
  end.

(** [new Date(t).toISOString()] for the years 0 to 9999. *)
Definition iso_format (t : Z) : string :=
  let day := t / 86400000 in
  let r := t mod 86400000 in
  let '(y, m, d) := civil_from_days day in
  pad 4 y +:+ "-" +:+ pad 2 m +:+ "-" +:+ pad 2 d +:+ "T"
  +:+ pad 2 (r / 3600000) +:+ ":" +:+ pad 2 (r / 60000 mod 60) +:+ ":"
  +:+ pad 2 (r / 1000 mod 60) +:+ "." +:+ pad 3 (r mod 1000) +:+ "Z".

Definition platform : Platform := {|
  Buffer := wire;
  dns_decode := decode;
  dns_encode := encode;
  Date_parse := iso_parse;
  toISOString := iso_format
|}.

#[local] Existing Instance platform.

(** Scenario A of the specification: guest 10.0.20.5 is paired to room
    101 until 2025-12-08 22:00 UTC, and the registry knows one receiver of
    that room at 10.0.30.9. *)
Definition guest : rinfo :=
  {| address := "10.0.20.5"; family := "IPv4"; port := 49152; size := 40 |}.

Definition ptr_query (name : string) : packet :=
  {| p_id := 0; p_type := "query";
     questions := Some [ {| q_name := name; q_type := "PTR"; q_class := "IN" |} ] |}.

Definition cast_query : wire := Query (ptr_query "_googlecast._tcp.local").

(** The same question, in the capitals a resolver may use. *)
Definition capital_query : wire := Query (ptr_query "_GoogleCast._TCP.local").

Definition pairing_fields (expires_at : string) : gmap string json :=
  {[ "room" := JStr "101";
     "paired_at" := JStr "2025-12-08T10:00:00.000Z";
     "expires_at" := JStr expires_at;
     "token_used" := JStr "5f2c9a1e" ]}.

Definition pairing (expires_at : string) : json := JObj (pairing_fields expires_at).

Definition pairings (expires_at : string) : json :=
  JObj {[ "10.0.20.5" := pairing expires_at ]}.

Definition receiver (uuid name ip : string) (room : json) : json :=
  JObj {[ "uuid" := JStr uuid;
          "friendly_name" := JStr name;
          "ip" := JStr ip;
          "last_seen" := JStr "2025-12-08T14:30:45.123Z";
          "room" := room ]}.

Definition tv : json :=
  receiver "a1b2c3d4-e5f6-7890-abcd-ef1234567890" "Living Room TV" "10.0.30.9"
    (JStr "101").

Definition hotel (store : gmap string file) (now : Z) (nft : string → bool)
  : world wire :=
  {| files := store; writable := λ _, true; clock := now; http := ∅;
     shell := nft; trace := [] |}.

Definition stores (expires_at : string) (registry : list json) : gmap string file :=
  {[ pairingsFile := Json (pairings expires_at);
     devicesFile := Json (JArr registry) ]}.

(** 2025-12-08T22:00:00.000Z *)
Definition ten_pm : Z := 1765231200000.

Definition nft_works : string → bool := λ _, true.
Definition nft_fails : string → bool := λ _, false.

(** The pairing expires at 22:00; the query arrives one hour before, at
    the very instant, or one second after. *)
Definition before_expiry : world wire :=
  hotel (stores "2025-12-08T22:00:00.000Z" [tv]) (ten_pm - 3600000) nft_works.
Definition at_expiry : world wire :=
  hotel (stores "2025-12-08T22:00:00.000Z" [tv]) ten_pm nft_works.
Definition after_expiry : world wire :=
  hotel (stores "2025-12-08T22:00:00.000Z" [tv]) (ten_pm + 1000) nft_works.

(** A pairing whose [expires_at] is not a date. *)
Definition no_date : world wire :=
  hotel (stores "soon" [tv]) 0 nft_works.

(** Scenario D: two receivers in room 101 and one in room 102, with a
    firewall that refuses every rule. *)
Definition tv2 : json :=
  receiver "0f1e2d3c-4b5a-6978-8796-a5b4c3d2e1f0" "Bedroom TV" "10.0.30.10"
    (JStr "101").
Definition tv_102 : json :=
  receiver "99999999-8888-7777-6666-555555555555" "Suite TV" "10.0.30.20"
    (JStr "102").
Definition two_receivers : world wire :=
  hotel (stores "2025-12-08T22:00:00.000Z" [tv; tv_102; tv2]) (ten_pm - 3600000)
    nft_fails.

(** Scenario C: no receiver is registered to the guest's room. *)
Definition empty_room : world wire :=
  hotel (stores "2025-12-08T22:00:00.000Z" [tv_102]) (ten_pm - 3600000) nft_works.

(** Two receivers whose identifiers differ only by a hyphen. *)
Definition tv_hyphen : json :=
  receiver "a1b2c3d4e5f6-7890-abcd-ef1234567890" "Lobby TV" "10.0.30.11"
    (JStr "102").

(** The receiver of Scenario A announces itself again on the device
    segment, after its room was assigned in the registry. *)
Definition tv_rediscovered : json :=
  JObj {[ "uuid" := JStr "a1b2c3d4-e5f6-7890-abcd-ef1234567890";
          "friendly_name" := JStr "Living Room TV";
          "ip" := JStr "10.0.30.9";
          "last_seen" := JStr "2025-12-08T22:00:00.000Z";
          "room" := JNull ]}.

Definition rediscovery : world wire :=
  {| files := {[ devicesFile := Json (JArr [tv]) ]};
     writable := λ _, true;
     clock := ten_pm;
     http := {[ "10.0.30.9" :=
                  {| UDN := "uuid:a1b2c3d4-e5f6-7890-abcd-ef1234567890";
                     friendlyName := "Living Room TV" |} ]};
     shell := nft_works;
     trace := [] |}.

(** A pairing record that names no room. *)
Definition roomless : world wire :=
  hotel {[ pairingsFile :=
             Json (JObj {[ "10.0.20.5" :=
                             JObj {[ "paired_at" := JStr "2025-12-08T10:00:00.000Z";
                                     "expires_at" := JStr "2025-12-08T22:00:00.000Z" ]} ]});
           devicesFile := Json (JArr [tv]) ]}
    (ten_pm - 3600000) nft_works.

(** A registry with an entry of room 101 that has no [uuid], between two
    well-formed ones. *)
Definition nameless : json :=
  JObj {[ "friendly_name" := JStr "Kitchen TV";
          "ip" := JStr "10.0.30.12";
          "room" := JStr "101" ]}.
Definition broken_registry : world wire :=
  hotel (stores "2025-12-08T22:00:00.000Z" [tv; nameless; tv2]) (ten_pm - 3600000)
    nft_works.

(** A registry in which one entry is [null]. *)
Definition null_entry : world wire :=
  hotel (stores "2025-12-08T22:00:00.000Z" [tv; JNull; tv2]) (ten_pm - 3600000)
    nft_works.

(** The fields of the record discovery builds for the receiver of
    Scenario A. *)
Definition tv_rediscovered_fields : gmap string json :=
  {[ "uuid" := JStr "a1b2c3d4-e5f6-7890-abcd-ef1234567890";
     "friendly_name" := JStr "Living Room TV";
     "ip" := JStr "10.0.30.9";
     "last_seen" := JStr "2025-12-08T22:00:00.000Z";
     "room" := JNull ]}.

(** The world of a discovery process: the registry file, and the
    receiver of Scenario A answering at 10.0.30.9. *)
Definition discovery (registry : option file) : world wire :=
  {| files := match registry with
              | Some f => {[ devicesFile := f ]}
              | None => ∅
              end;
     writable := λ _, true;
     clock := ten_pm;
     http := {[ "10.0.30.9" :=
                  {| UDN := "uuid:a1b2c3d4-e5f6-7890-abcd-ef1234567890";
                     friendlyName := "Living Room TV" |} ]};
     shell := nft_works;
     trace := [] |}.

(** The registry after the rediscovery of the receiver of Scenario A. *)
Definition rediscovered (w : world wire) (registry : list json) : world wire :=
  set_files (<[devicesFile := Json (JArr registry)]> (files w)) w.

(** ** The pairing server of the hotel *)

(** The members of [Object.prototype], which the stores parsed from JSON
    inherit. *)
Definition Object_prototype : list string :=
  [ "constructor"; "hasOwnProperty"; "isPrototypeOf"; "propertyIsEnumerable";
    "toLocaleString"; "toString"; "valueOf"; "__proto__";
    "__defineGetter__"; "__defineSetter__"; "__lookupGetter__";
    "__lookupSetter__" ].

Definition server : Deployment := {|
  tokensFile := "data/tokens.json";
  server_pairingsFile := "data/pairings.json";
  inherited := λ _ k, existsb (String.eqb k) Object_prototype;
  QRCode_toDataURL := λ url, Normal ("data:image/png;base64," +:+ url)
|}.

(** 2025-12-08T10:00:00.000Z *)
Definition ten_am : Z := 1765188000000.

(** The token of Scenario A, issued for room 101 at 09:50 and valid until
    10:05. *)
Definition token_fields : gmap string json :=
  {[ "room" := JStr "101";
     "created_at" := JStr "2025-12-08T09:50:00.000Z";
     "expires_at" := JStr "2025-12-08T10:05:00.000Z" ]}.

Definition token_store : gmap string json := {[ "5f2c9a1e" := JObj token_fields ]}.

(** The hotel before any guest is paired: the token store and the
    registry, no pairings file yet. *)
Definition lobby (now : Z) : world wire :=
  hotel {[ "data/tokens.json" := Json (JObj token_store);
           devicesFile := Json (JArr [tv; tv_102]) ]} now nft_works.

(** The hotel without a token store. *)
Definition no_tokens : world wire :=
  hotel {[ devicesFile := Json (JArr [tv; tv_102]) ]} ten_am nft_works.

(** A guest opens the pairing link from the address [from]. *)
Definition scan (token from : string) : pair_request :=
  {| query_token := Some (JStr token);
     x_forwarded_for := None;
     remoteAddress := Some from |}.

(** The same request relayed by a proxy at 192.168.20.1. *)
Definition relayed (token from : string) : pair_request :=
  {| query_token := Some (JStr token);
     x_forwarded_for := Some from;
     remoteAddress := Some "::ffff:192.168.20.1" |}.

End Scenario.

(** * Properties *)

#[local] Arguments get : simpl never.
#[local] Arguments truthy : simpl never.
#[local] Arguments strict_eq : simpl never.
#[local] Arguments Date_lt : simpl never.
#[local] Arguments new_Date : simpl never.
#[local] Arguments ToString : simpl never.

(** Unfolds the operations of the monad. *)
Ltac run :=
  unfold mbind, M_bind, mret, M_ret, try_catch, lift, readFile,
    Date_now, socket_send, execPromise, JSON_parse in *; simpl in *.

Section Properties.
Context `{Platform}.

(** The bodies of the two response loops. *)
Local Abbreviation respond ri :=
  (λ device : json,
     response ← lift (buildResponse device);
     socket_send response (port ri) (address ri)).

Local Abbreviation respond_and_allow ri :=
  (λ device : json,
     response ← lift (buildResponse device);
     _ ← socket_send response (port ri) (address ri);
     ip ← lift (get (Some device) "ip");
     _ ← allowPair (address ri) ip 15;
     mret tt).


(** ** Running the monad *)

Lemma add_events_nil (w : world Buffer) : add_events [] w = w.
Proof. destruct w; unfold add_events; simpl. by rewrite app_nil_r. Qed.

Lemma add_events_app evs1 evs2 (w : world Buffer) :
  add_events evs2 (add_events evs1 w) = add_events (evs1 ++ evs2) w.
Proof. unfold add_events; simpl. by rewrite app_assoc. Qed.

Lemma emitted_add_events {A} (m : world Buffer → A * world Buffer) w evs :
  (m w).2 = add_events evs w → emitted m w = evs.
Proof.
  intros E. unfold emitted. rewrite E. simpl. by rewrite drop_app_length.
Qed.

Lemma bind_normal {A B} (m : M A) (f : A → M B) w a w' :
  m w = (Normal a, w') → (x ← m; f x) w = f a w'.
Proof. intros E. unfold mbind, M_bind. by rewrite E. Qed.

Lemma bind_throw {A B} (m : M A) (f : A → M B) w w' :
  m w = (Throw, w') → (x ← m; f x) w = (Throw, w').
Proof. intros E. unfold mbind, M_bind. by rewrite E. Qed.

Lemma get_obj m k : get (Some (JObj m)) k = Normal (m !! k).
Proof. reflexivity. Qed.

Lemma get_not_null d k : d ≠ JNull → ∃ v, get (Some d) k = Normal v.
Proof.
  intros Hd. destruct d; unfold get; try congruence; eauto;
    destruct (String.eqb k "length"); eauto.
Qed.

(** ** The authorization resolver *)

Lemma getRoomForGuest_pure guestIP w :
  ∃ v, getRoomForGuest guestIP w = (Normal v, w).
Proof.
  unfold getRoomForGuest. run.
  destruct (files w !! pairingsFile) as [[pairings|raw]|]; simpl; eauto.
  destruct (get (Some pairings) guestIP) as [pairing|]; simpl; eauto.
  destruct (truthy pairing); simpl; eauto.
  destruct (get pairing "expires_at") as [e|]; simpl; eauto.
  destruct (Date_lt (new_Date e) (Some (clock w))); simpl; eauto.
  destruct (get pairing "room"); simpl; eauto.
Qed.

Lemma getRoomForGuest_missing guestIP w :
  files w !! pairingsFile = None → getRoomForGuest guestIP w = (Normal null, w).
Proof. intros E. unfold getRoomForGuest. run. by rewrite E. Qed.

Lemma getRoomForGuest_unparsable guestIP w raw :
  files w !! pairingsFile = Some (Text raw) →
  getRoomForGuest guestIP w = (Normal null, w).
Proof. intros E. unfold getRoomForGuest. run. by rewrite E. Qed.

Lemma getRoomForGuest_no_record guestIP w pairings :
  files w !! pairingsFile = Some (Json (JObj pairings)) →
  pairings !! guestIP = None →
  getRoomForGuest guestIP w = (Normal null, w).
Proof.
  intros E E'. unfold getRoomForGuest. run. rewrite E. simpl.
  by rewrite E'.
Qed.

(** A record that is present: the resolver compares its expiry with the
    clock and, unless the expiry is earlier, returns its [room]. *)
Lemma getRoomForGuest_record guestIP w pairings pairing expires_at room :
  files w !! pairingsFile = Some (Json (JObj pairings)) →
  pairings !! guestIP = Some pairing →
  truthy (Some pairing) = true →
  get (Some pairing) "expires_at" = Normal expires_at →
  get (Some pairing) "room" = Normal room →
  getRoomForGuest guestIP w =
    (Normal (if Date_lt (new_Date expires_at) (Some (clock w)) then null else room), w).
Proof.
  intros E E' Et Ee Er. unfold getRoomForGuest. run. rewrite E. simpl.
  rewrite E', Et. simpl. rewrite Ee.
  destruct (Date_lt _ _); simpl; [done|]. by rewrite Er.
Qed.

(** ** The device registry *)

Lemma getDevicesForRoom_pure room w :
  ∃ ds, getDevicesForRoom room w = (Normal ds, w).
Proof.
  unfold getDevicesForRoom. run.
  destruct (files w !! devicesFile) as [[devices|raw]|]; simpl; eauto.
  destruct (Array_filter devices _); simpl; eauto.
Qed.

Lemma filterM_registry room l :
  Forall (λ d, d ≠ JNull) l →
  filterM (λ d, r ← get (Some d) "room"; Normal (strict_eq r room)) l
  = Normal (List.filter (in_room room) l).
Proof.
  induction 1 as [|d l Hd _ IH]; simpl; [done|].
  destruct (get_not_null d "room" Hd) as [r Er].
  unfold in_room. rewrite Er, IH. simpl.
  by destruct (strict_eq r room).
Qed.

Lemma getDevicesForRoom_registry room w registry :
  files w !! devicesFile = Some (Json (JArr registry)) →
  Forall (λ d, d ≠ JNull) registry →
  getDevicesForRoom room w = (Normal (List.filter (in_room room) registry), w).
Proof.
  intros E Hl. pose proof (filterM_registry room registry Hl) as F.
  unfold getDevicesForRoom. run. rewrite E. simpl. by rewrite F.
Qed.

Lemma filterM_no_match room l :
  Forall (λ d, in_room room d = false) l →
  filterM (λ d, r ← get (Some d) "room"; Normal (strict_eq r room)) l = Throw
  ∨ filterM (λ d, r ← get (Some d) "room"; Normal (strict_eq r room)) l = Normal [].
Proof.
  induction 1 as [|d l Hd _ IH]; simpl; [by right|].
  unfold in_room in Hd.
  destruct (get (Some d) "room") as [r|]; simpl; [|by left].
  rewrite Hd. destruct IH as [->| ->]; [by left|by right].
Qed.

Lemma getDevicesForRoom_none room w :
  no_devices w room → getDevicesForRoom room w = (Normal [], w).
Proof.
  intros [E|raw E|registry E Hl];
    [| |pose proof (filterM_no_match room registry Hl) as F];
    unfold getDevicesForRoom; run; rewrite E; simpl; try done.
  by destruct F as [->| ->].
Qed.

(** ** The response loop *)

Lemma respond_sent ri d buf w :
  buildResponse d = Normal buf →
  respond ri d w = (Normal tt, add_events [Send buf (port ri) (address ri)] w).
Proof. intros E. run. by rewrite E. Qed.

Lemma respond_thrown ri d w :
  buildResponse d = Throw → respond ri d w = (Throw, w).
Proof. intros E. run. by rewrite E. Qed.

Lemma respond_each ri ds w :
  Forall answerable ds →
  ∃ evs,
    for_of ds (respond ri) w = (Normal tt, add_events evs w)
    ∧ Forall2 (λ d e, ∃ buf, buildResponse d = Normal buf
                             ∧ e = Send buf (port ri) (address ri)) ds evs.
Proof.
  intros Hds. revert w. induction Hds as [|d ds [buf Hd] _ IH]; intros w.
  - exists []. by rewrite add_events_nil.
  - destruct (IH (add_events [Send buf (port ri) (address ri)] w)) as (evs & E & F).
    exists (Send buf (port ri) (address ri) :: evs). split.
    + simpl. erewrite bind_normal; [|by apply respond_sent].
      by rewrite E, add_events_app.
    + constructor; eauto.
Qed.

Lemma respond_any ri ds w :
  ∃ c evs,
    for_of ds (respond ri) w = (c, add_events evs w)
    ∧ Forall (λ e, to_requester ri e ∧ is_send e = true) evs.
Proof.
  revert w. induction ds as [|d ds IH]; intros w.
  - exists (Normal tt), []. by rewrite add_events_nil.
  - destruct (buildResponse d) as [buf|] eqn:Hd; simpl.
    + destruct (IH (add_events [Send buf (port ri) (address ri)] w))
        as (c & evs & E & F).
      exists c, (Send buf (port ri) (address ri) :: evs). split.
      * erewrite bind_normal; [|by apply respond_sent].
        by rewrite E, add_events_app.
      * constructor; [by repeat split|done].
    + exists Throw, []. rewrite add_events_nil.
      erewrite bind_throw; [done|by apply respond_thrown].
Qed.

(** Whatever the datagram and the stores, the handler only appends to the
    trace, and what it appends are datagrams to the requester. *)
Lemma handleQuery_frame msg ri w :
  ∃ c evs,
    handleQuery msg ri w = (c, add_events evs w)
    ∧ Forall (λ e, to_requester ri e ∧ is_send e = true) evs.
Proof.
  unfold handleQuery.
  destruct (dns_decode msg) as [p|] eqn:Ep.
  2:{ exists Throw, []. rewrite add_events_nil. by run. }
  erewrite bind_normal; [|by run].
  destruct (isGoogleCast p); simpl.
  2:{ exists (Normal tt), []. rewrite add_events_nil. by run. }
  destruct (getRoomForGuest_pure (address ri) w) as [room Er].
  erewrite bind_normal; [|exact Er].
  destruct (truthy room); simpl.
  2:{ exists (Normal tt), []. rewrite add_events_nil. by run. }
  destruct (getDevicesForRoom_pure room w) as [ds Ed].
  erewrite bind_normal; [|exact Ed].
  apply respond_any.
Qed.

(** The handler of [lib/mdns-responder.js] runs no command: it requests
    no firewall rule. *)
Lemma handleQuery_only_sends msg ri w :
  Forall (λ e, is_send e = true) (emitted (handleQuery msg ri) w).
Proof.
  destruct (handleQuery_frame msg ri w) as (c & evs & E & F).
  rewrite (emitted_add_events _ w evs) by (by rewrite E).
  eapply Forall_impl; [exact F|]. by intros e [_ ?].
Qed.

Lemma handleQuery_emitted msg ri w :
  (handleQuery msg ri w).2 = add_events (emitted (handleQuery msg ri) w) w.
Proof.
  destruct (handleQuery_frame msg ri w) as (c & evs & E & _).
  rewrite (emitted_add_events _ w evs); by rewrite E.
Qed.

Lemma handleQuery_unauthorized msg ri w :
  getRoomForGuest (address ri) w = (Normal null, w) →
  (handleQuery msg ri w).2 = w.
Proof.
  intros Er. unfold handleQuery.
  destruct (dns_decode msg) as [p|] eqn:Ep; [|by run].
  erewrite bind_normal; [|by run].
  destruct (isGoogleCast p); simpl; [|by run].
  erewrite bind_normal; [|exact Er]. done.
Qed.

(** ** The firewall synchronizer *)

(** [allowPair] runs its command and reports the outcome as a boolean: a
    failure of the command is caught and does not propagate. *)
Lemma allowPair_run guestIP ip ttl w :
  allowPair guestIP ip ttl w
  = (Normal (shell w (nft_add_element (guestIP +:+ " . " +:+ ToString ip) ttl)),
     add_events [Exec (nft_add_element (guestIP +:+ " . " +:+ ToString ip) ttl)] w).
Proof. unfold allowPair. run. by destruct (shell w _). Qed.

Lemma buildResponse_ip d buf :
  buildResponse d = Normal buf → ∃ ip, get (Some d) "ip" = Normal ip.
Proof.
  intros E. destruct d; first [by apply get_not_null | discriminate E].
Qed.

Lemma respond_and_allow_served ri d w :
  answerable d →
  respond_and_allow ri d w = (Normal tt, add_events (served ri d) w).
Proof.
  intros [buf Hd]. destruct (buildResponse_ip d buf Hd) as [ip Hip].
  unfold served. rewrite Hd, Hip.
  erewrite bind_normal; [|by run].
  erewrite bind_normal; [|by run].
  erewrite bind_normal; [|by run].
  erewrite bind_normal; [|by apply allowPair_run].
  unfold add_event. by rewrite add_events_app.
Qed.

Lemma respond_and_allow_each ri ds w :
  Forall answerable ds →
  for_of ds (respond_and_allow ri) w
  = (Normal tt, add_events (flat_map (served ri) ds) w).
Proof.
  intros Hds. revert w. induction Hds as [|d ds Hd _ IH]; intros w; simpl.
  - by rewrite add_events_nil.
  - erewrite bind_normal; [|by apply respond_and_allow_served].
    by rewrite IH, add_events_app.
Qed.

Lemma sends_of_served ri ds evs :
  Forall2 (λ d e, ∃ buf, buildResponse d = Normal buf
                         ∧ e = Send buf (port ri) (address ri)) ds evs →
  List.filter is_send (flat_map (served ri) ds) = evs.
Proof.
  induction 1 as [|d e ds evs (buf & Hd & ->) _ IH]; simpl; [done|].
  destruct (buildResponse_ip d buf Hd) as [ip Hip].
  unfold served at 1. rewrite Hd, Hip. simpl. by rewrite IH.
Qed.

Lemma respond_and_allow_thrown ri d w :
  buildResponse d = Throw → respond_and_allow ri d w = (Throw, w).
Proof. intros E. run. by rewrite E. Qed.

Lemma served_to_requester ri d : Forall (to_requester ri) (served ri d).
Proof.
  unfold served. destruct (buildResponse d); [|done].
  destruct (get (Some d) "ip"); [|done].
  repeat constructor.
Qed.

Lemma respond_and_allow_any ri ds w :
  ∃ c evs,
    for_of ds (respond_and_allow ri) w = (c, add_events evs w)
    ∧ Forall (to_requester ri) evs.
Proof.
  revert w. induction ds as [|d ds IH]; intros w.
  - exists (Normal tt), []. by rewrite add_events_nil.
  - destruct (buildResponse d) as [buf|] eqn:Hd; simpl.
    + destruct (IH (add_events (served ri d) w)) as (c & evs & E & F).
      exists c, (served ri d ++ evs)%list. split.
      * erewrite bind_normal; [|apply respond_and_allow_served; by exists buf].
        by rewrite E, add_events_app.
      * apply Forall_app. split; [apply served_to_requester|done].
    + exists Throw, []. rewrite add_events_nil.
      erewrite bind_throw; [done|by apply respond_and_allow_thrown].
Qed.

Lemma handleQuery_firewall_frame msg ri w :
  ∃ c evs,
    handleQuery_firewall msg ri w = (c, add_events evs w)
    ∧ Forall (to_requester ri) evs.
Proof.
  unfold handleQuery_firewall.
  destruct (dns_decode msg) as [p|] eqn:Ep.
  2:{ exists Throw, []. rewrite add_events_nil. by run. }
  erewrite bind_normal; [|by run].
  destruct (isGoogleCast p); simpl.
  2:{ exists (Normal tt), []. rewrite add_events_nil. by run. }
  destruct (getRoomForGuest_pure (address ri) w) as [room Er].
  erewrite bind_normal; [|exact Er].
  destruct (truthy room); simpl.
  2:{ exists (Normal tt), []. rewrite add_events_nil. by run. }
  destruct (getDevicesForRoom_pure room w) as [ds Ed].
  erewrite bind_normal; [|exact Ed].
  apply respond_and_allow_any.
Qed.

Lemma handleQuery_firewall_emitted msg ri w :
  (handleQuery_firewall msg ri w).2
  = add_events (emitted (handleQuery_firewall msg ri) w) w.
Proof.
  destruct (handleQuery_firewall_frame msg ri w) as (c & evs & E & _).
  rewrite (emitted_add_events _ w evs); by rewrite E.
Qed.

(** A datagram to the requester does not go to the multicast group. *)
Lemma to_requester_not_group ri e :
  address ri ≠ MDNS_GROUP → to_requester ri e → to_requester ri e ∧ ¬ to_group e.
Proof.
  intros Hne Hr. split; [done|].
  destruct e as [buf p a|cmd]; simpl in *; [|tauto].
  destruct Hr as [_ ->]. done.
Qed.

(** A record with a string [uuid] is answerable on a platform whose
    encoder accepts every message. *)
Lemma answerable_record d u :
  get (Some d) "uuid" = Normal (Some (JStr u)) →
  (∀ m, is_Some (dns_encode m)) →
  answerable d.
Proof.
  intros Eu Henc. unfold answerable, buildResponse, instanceName, response_message.
  rewrite Eu. simpl.
  assert (d ≠ JNull) as Hd by (intros ->; discriminate Eu).
  destruct (get_not_null d "friendly_name" Hd) as [fn ->].
  destruct (get_not_null d "ip" Hd) as [ip ->]. simpl.
  match goal with |- ∃ buf, match dns_encode ?m with _ => _ end = _ =>
    destruct (Henc m) as [b ->] end.
  by exists b.
Qed.

(** ** Claims *)

(** C1 (amended): for a query, relevant or not, from a source address
    for which the pairing store cannot be read or parsed, has no record, or
    has a record whose expiry is earlier than the time of the query
    ([expiresAt < now]), [getRoomForGuest] yields [null] ("unauthorized")
    and the handler leaves the world as it found it: no datagram is
    sent. *)
Theorem unauthorized_no_response msg ri w :
  unauthorized w (address ri) →
  getRoomForGuest (address ri) w = (Normal null, w)
  ∧ (handleQuery msg ri w).2 = w
  ∧ emitted (handleQuery msg ri) w = [].
Proof.
  intros Hu.
  assert (getRoomForGuest (address ri) w = (Normal null, w)) as Er.
  { destruct Hu as [E|raw E|pairings E E'|pairings pairing e t E E' Ee Et Hlt].
    - by apply getRoomForGuest_missing.
    - by eapply getRoomForGuest_unparsable.
    - by eapply getRoomForGuest_no_record.
    - unfold getRoomForGuest. run. rewrite E. simpl. rewrite E'.
      destruct (truthy (Some pairing)); simpl; [|done].
      rewrite Ee, Et. unfold Date_lt.
      by apply Z.ltb_lt in Hlt as ->. }
  pose proof (handleQuery_unauthorized msg ri w Er) as Ew.
  repeat split; [done|done|].
  apply emitted_add_events. by rewrite Ew, add_events_nil.
Qed.

(** C3 (amended): a pairing whose [expires_at] is exactly the time of the
    query, or later, is valid: the comparison [expires_at < now] is false
    and [getRoomForGuest] returns the room of the record. *)
Theorem expiry_instant_still_valid guestIP w pairings fields t :
  files w !! pairingsFile = Some (Json (JObj pairings)) →
  pairings !! guestIP = Some (JObj fields) →
  new_Date (fields !! "expires_at") = Some t →
  (clock w <= t)%Z →
  Date_lt (new_Date (fields !! "expires_at")) (Some (clock w)) = false
  ∧ getRoomForGuest guestIP w = (Normal (fields !! "room"), w).
Proof.
  intros E E' Et Hle.
  assert (Date_lt (new_Date (fields !! "expires_at")) (Some (clock w)) = false)
    as Hlt.
  { rewrite Et. unfold Date_lt. by apply Z.ltb_ge. }
  split; [done|].
  rewrite (getRoomForGuest_record guestIP w pairings (JObj fields)
             (fields !! "expires_at") (fields !! "room")); try done.
  by rewrite Hlt.
Qed.

(** C10: a pairing record whose [expires_at] does not give a valid date
    (the Date is invalid, its time value NaN) is never found expired: at
    every time of the clock [getRoomForGuest] returns its room. *)
Theorem invalid_expiry_never_expires guestIP w pairings fields t :
  files w !! pairingsFile = Some (Json (JObj pairings)) →
  pairings !! guestIP = Some (JObj fields) →
  new_Date (fields !! "expires_at") = None →
  Date_lt (new_Date (fields !! "expires_at")) (Some t) = false
  ∧ getRoomForGuest guestIP (at_time t w)
    = (Normal (fields !! "room"), at_time t w).
Proof.
  intros E E' Et. split; [by rewrite Et|].
  rewrite (getRoomForGuest_record guestIP (at_time t w) pairings (JObj fields)
             (fields !! "expires_at") (fields !! "room")); try done.
  by rewrite Et.
Qed.

(** C4: every datagram sent by the handler, without or with the
    firewall integration, goes to the address and the port the query came
    from, and none goes to the multicast group (the source address of a
    received datagram is a unicast address); this for every datagram
    received and every content of the stores. *)
Theorem responses_are_unicast msg ri w :
  address ri ≠ MDNS_GROUP →
  (handleQuery msg ri w).2 = add_events (emitted (handleQuery msg ri) w) w
  ∧ Forall (λ e, to_requester ri e ∧ ¬ to_group e)
      (emitted (handleQuery msg ri) w)
  ∧ (handleQuery_firewall msg ri w).2
    = add_events (emitted (handleQuery_firewall msg ri) w) w
  ∧ Forall (λ e, to_requester ri e ∧ ¬ to_group e)
      (emitted (handleQuery_firewall msg ri) w).
Proof.
  intros Hne.
  split; [apply handleQuery_emitted|]. split.
  { destruct (handleQuery_frame msg ri w) as (c & evs & E & F).
    rewrite (emitted_add_events _ w evs) by (by rewrite E).
    eapply Forall_impl; [exact F|].
    intros e [He _]. by apply to_requester_not_group. }
  split; [apply handleQuery_firewall_emitted|].
  destruct (handleQuery_firewall_frame msg ri w) as (c & evs & E & F).
  rewrite (emitted_add_events _ w evs) by (by rewrite E).
  eapply Forall_impl; [exact F|]. intros e. by apply to_requester_not_group.
Qed.

(** C5 (amended): a decoded query is relevant exactly when one of its
    questions has the name [_googlecast._tcp.local], compared character by
    character, and the type PTR; one such question among several is enough,
    and for a query without one the handler returns without sending. *)
Theorem relevance_is_exact_match msg p ri w :
  dns_decode msg = Some p →
  (isGoogleCast p = true ↔
     ∃ qs q, questions p = Some qs ∧ In q qs
             ∧ q_name q = "_googlecast._tcp.local" ∧ q_type q = "PTR")
  ∧ (isGoogleCast p = false →
       handleQuery msg ri w = (Normal tt, w)
       ∧ emitted (handleQuery msg ri) w = []).
Proof.
  intros Ep. split.
  - unfold isGoogleCast. destruct (questions p) as [qs|]; split.
    + intros Hq. apply existsb_exists in Hq as (q & Hin & Hq).
      apply andb_true_iff in Hq as [Hn Ht].
      apply String.eqb_eq in Hn, Ht. by exists qs, q.
    + intros (qs' & q & [= <-] & Hin & Hn & Ht).
      apply existsb_exists. exists q. split; [done|].
      rewrite Hn, Ht. done.
    + done.
    + by intros (qs' & q & [=] & _).
  - intros Hq.
    assert (handleQuery msg ri w = (Normal tt, w)) as E.
    { unfold handleQuery. rewrite Ep. erewrite bind_normal; [|by run].
      by rewrite Hq. }
    split; [done|]. apply emitted_add_events. by rewrite E, add_events_nil.
Qed.

Lemma in_room_string r d :
  in_room (Some (JStr r)) d = true ↔ get (Some d) "room" = Normal (Some (JStr r)).
Proof.
  unfold in_room. destruct (get (Some d) "room") as [[[]|]|]; unfold strict_eq;
    split; try done; try (by intros [=]).
  - intros E. by apply String.eqb_eq in E as ->.
  - intros [= ->]. apply String.eqb_refl.
Qed.

Lemma handleQuery_authorized msg p ri w room registry :
  dns_decode msg = Some p →
  isGoogleCast p = true →
  getRoomForGuest (address ri) w = (Normal room, w) →
  truthy room = true →
  files w !! devicesFile = Some (Json (JArr registry)) →
  Forall (λ d, d ≠ JNull) registry →
  Forall answerable (List.filter (in_room room) registry) →
  ∃ evs,
    handleQuery msg ri w = (Normal tt, add_events evs w)
    ∧ Forall2 (λ d e, ∃ buf, buildResponse d = Normal buf
                             ∧ e = Send buf (port ri) (address ri))
        (List.filter (in_room room) registry) evs.
Proof.
  intros Ep Hq Er Ht Ef Hl Ha.
  destruct (respond_each ri _ w Ha) as (evs & E & F).
  exists evs. split; [|done].
  unfold handleQuery. rewrite Ep. erewrite bind_normal; [|by run].
  rewrite Hq. simpl. erewrite bind_normal; [|exact Er].
  rewrite Ht. simpl.
  erewrite bind_normal; [|by apply getDevicesForRoom_registry].
  exact E.
Qed.

(** C2: for a relevant query from a guest authorized to room [room],
    with a registry of device records that can be answered, the datagrams
    sent are, in order, one response per device of
    [{d ∈ registry : d.room === room}]: each built from that device alone,
    none for another device and none missing; for a string room the test is
    equality with the string held by the record. *)
Theorem one_response_per_device_of_room msg p ri w room registry :
  dns_decode msg = Some p →
  isGoogleCast p = true →
  getRoomForGuest (address ri) w = (Normal room, w) →
  truthy room = true →
  files w !! devicesFile = Some (Json (JArr registry)) →
  Forall (λ d, d ≠ JNull) registry →
  Forall answerable (List.filter (in_room room) registry) →
  (handleQuery msg ri w).1 = Normal tt
  ∧ Forall2 (λ d e, ∃ buf, buildResponse d = Normal buf
                           ∧ e = Send buf (port ri) (address ri))
      (List.filter (in_room room) registry) (emitted (handleQuery msg ri) w)
  ∧ length (emitted (handleQuery msg ri) w)
    = length (List.filter (in_room room) registry)
  ∧ (∀ r d, room = Some (JStr r) →
       in_room room d = true ↔ get (Some d) "room" = Normal (Some (JStr r))).
Proof.
  intros Ep Hq Er Ht Ef Hl Ha.
  destruct (handleQuery_authorized msg p ri w room registry)
    as (evs & Eh & F); try done.
  rewrite (emitted_add_events _ w evs) by (by rewrite Eh).
  rewrite Eh. split; [done|]. split; [done|]. split.
  - symmetry. by eapply Forall2_length.
  - intros r d ->. apply in_room_string.
Qed.

(** C9: for a relevant query from an authorized guest whose room has no
    device to answer for (no registry entry is in the room, or the registry
    file is missing, unreadable or not JSON) the handler sends nothing and
    returns without an error. *)
Theorem empty_room_is_silence msg p ri w room :
  dns_decode msg = Some p →
  isGoogleCast p = true →
  getRoomForGuest (address ri) w = (Normal room, w) →
  truthy room = true →
  no_devices w room →
  handleQuery msg ri w = (Normal tt, w)
  ∧ emitted (handleQuery msg ri) w = [].
Proof.
  intros Ep Hq Er Ht Hn.
  assert (handleQuery msg ri w = (Normal tt, w)) as Eh.
  { unfold handleQuery. rewrite Ep. erewrite bind_normal; [|by run].
    rewrite Hq. simpl. erewrite bind_normal; [|exact Er].
    rewrite Ht. simpl.
    erewrite bind_normal; [|by apply getDevicesForRoom_none]. done. }
  split; [done|]. apply emitted_add_events. by rewrite Eh, add_events_nil.
Qed.

Lemma remove_dashes_layout u1 u2 :
  hyphen_layout u1 = hyphen_layout u2 →
  remove_dashes u1 = remove_dashes u2 → u1 = u2.
Proof.
  revert u2. induction u1 as [|c1 r1 IH]; intros [|c2 r2]; simpl; try done.
  intros [= Hc Hr].
  destruct (Ascii.eqb c1 "-") eqn:E1; rewrite <- Hc.
  - apply Ascii.eqb_eq in E1. symmetry in Hc. apply Ascii.eqb_eq in Hc.
    intros Hd. rewrite E1, Hc. f_equal. by apply IH.
  - intros [= -> Hd]. f_equal. by apply IH.
Qed.

(** C8 (amended): the instance name is computed from the [uuid] of the
    device alone, as [Chromecast-] followed by the uuid without its
    hyphens: devices with the same uuid have the same name whatever their
    other fields, and two devices have the same name exactly when their
    uuids are equal once the hyphens are removed; uuids written with the
    same layout of hyphens, such as canonical ones, give the same name
    only if they are equal. *)
Theorem instance_name_from_uuid d1 d2 u1 u2 :
  get (Some d1) "uuid" = Normal (Some (JStr u1)) →
  get (Some d2) "uuid" = Normal (Some (JStr u2)) →
  instanceName d1 = Normal ("Chromecast-" +:+ remove_dashes u1)
  ∧ (u1 = u2 → instanceName d1 = instanceName d2)
  ∧ (instanceName d1 = instanceName d2 ↔ remove_dashes u1 = remove_dashes u2)
  ∧ (hyphen_layout u1 = hyphen_layout u2 →
       instanceName d1 = instanceName d2 → u1 = u2).
Proof.
  intros E1 E2. unfold instanceName. rewrite E1, E2. simpl.
  split; [done|]. split; [by intros ->|].
  split; [split; [by intros [=]|by intros ->]|].
  intros Hl [= Hd]. by apply remove_dashes_layout.
Qed.

(** ** The discovery listener *)

(** What object spread keeps and what it overrides. *)
Lemma spread_supplied a b k v :
  own_props b !! k = Some v → get (Some (spread a b)) k = Normal (Some v).
Proof. intros E. unfold spread. rewrite get_obj. by erewrite lookup_union_Some_l. Qed.

Lemma spread_kept a b k :
  own_props b !! k = None → get (Some (spread a b)) k = Normal (own_props a !! k).
Proof. intros E. unfold spread. rewrite get_obj. by rewrite lookup_union_r. Qed.

(** The record built by [fetchDeviceInfo] always carries [room: null]. *)
Lemma fetchDeviceInfo_room ip w info w' :
  fetchDeviceInfo ip w = (Normal info, w') → get (Some info) "room" = Normal null.
Proof.
  unfold fetchDeviceInfo. destruct (http w !! ip); [|done].
  intros [= <- _]. done.
Qed.


End Properties.

(** * The scenarios of the specification, on the concrete platform *)

Section Scenarios.
Import Scenario.
#[local] Existing Instance platform.

(** Scenario A: one response, to the guest, for the receiver of its room. *)
Example scenario_A :
  ∃ buf, buildResponse tv = Normal buf
         ∧ handleQuery cast_query guest before_expiry
           = (Normal tt, add_events [Send buf 49152 "10.0.20.5"] before_expiry).
Proof. eexists. split; [reflexivity|]. vm_compute. reflexivity. Qed.

(** Scenario B: the pairing expired one second ago. *)
Example scenario_B :
  handleQuery cast_query guest after_expiry = (Normal tt, after_expiry).
Proof. vm_compute. reflexivity. Qed.

(** C1, at an instance: the pairing of Scenario B. *)
Lemma unauthorized_no_response_witness :
  getRoomForGuest "10.0.20.5" after_expiry = (Normal null, after_expiry)
  ∧ (handleQuery cast_query guest after_expiry).2 = after_expiry
  ∧ emitted (handleQuery cast_query guest) after_expiry = [].
Proof.
  apply (unauthorized_no_response (H := platform) cast_query guest after_expiry).
  apply (expired (H := platform) after_expiry "10.0.20.5"
           {[ "10.0.20.5" := pairing "2025-12-08T22:00:00.000Z" ]}
           (pairing "2025-12-08T22:00:00.000Z")
           (Some (JStr "2025-12-08T22:00:00.000Z")) ten_pm);
    vm_compute; reflexivity.
Defined.

(** C1 as stated fails when [expiresAt] equals the time of the query: the
    guest is answered. *)
Lemma query_at_expiry_is_answered :
  new_Date (Some (JStr "2025-12-08T22:00:00.000Z")) = Some (clock at_expiry)
  ∧ (clock at_expiry <= clock at_expiry)%Z
  ∧ ∃ buf, buildResponse tv = Normal buf
           ∧ handleQuery cast_query guest at_expiry
             = (Normal tt, add_events [Send buf 49152 "10.0.20.5"] at_expiry).
Proof.
  split; [reflexivity|]. split; [reflexivity|].
  eexists. split; [reflexivity|]. vm_compute. reflexivity.
Qed.

(** C3, at an instance: the query arrives at 22:00:00.000. *)
Lemma expiry_instant_still_valid_witness :
  Date_lt (new_Date (pairing_fields "2025-12-08T22:00:00.000Z" !! "expires_at"))
    (Some (clock at_expiry)) = false
  ∧ getRoomForGuest "10.0.20.5" at_expiry
    = (Normal (Some (JStr "101")), at_expiry).
Proof.
  change (Some (JStr "101"))
    with (pairing_fields "2025-12-08T22:00:00.000Z" !! "room").
  apply (expiry_instant_still_valid (H := platform) "10.0.20.5" at_expiry
           {[ "10.0.20.5" := pairing "2025-12-08T22:00:00.000Z" ]}
           (pairing_fields "2025-12-08T22:00:00.000Z") ten_pm).
  - vm_compute. reflexivity.
  - vm_compute. reflexivity.
  - vm_compute. reflexivity.
  - reflexivity.
Defined.

(** C3 as stated fails: at the instant of expiry the resolver returns the
    room, not "unauthorized". *)
Lemma resolver_at_expiry_returns_room :
  new_Date (Some (JStr "2025-12-08T22:00:00.000Z")) = Some (clock at_expiry)
  ∧ getRoomForGuest "10.0.20.5" at_expiry = (Normal (Some (JStr "101")), at_expiry)
  ∧ truthy (Some (JStr "101")) = true.
Proof. repeat split; vm_compute; reflexivity. Qed.

(** C10, at an instance: [expires_at] is the text "soon", and the query
    arrives on 2100-01-01. *)
Lemma invalid_expiry_never_expires_witness :
  Date_lt (new_Date (pairing_fields "soon" !! "expires_at"))
    (Some 4102444800000%Z) = false
  ∧ getRoomForGuest "10.0.20.5" (at_time 4102444800000 no_date)
    = (Normal (Some (JStr "101")), at_time 4102444800000 no_date).
Proof.
  change (Some (JStr "101")) with (pairing_fields "soon" !! "room").
  apply (invalid_expiry_never_expires (H := platform) "10.0.20.5" no_date
           {[ "10.0.20.5" := pairing "soon" ]}
           (pairing_fields "soon") 4102444800000);
    vm_compute; reflexivity.
Defined.

(** C4, at an instance: Scenario A. *)
Lemma responses_are_unicast_witness :
  (handleQuery cast_query guest before_expiry).2
  = add_events (emitted (handleQuery cast_query guest) before_expiry) before_expiry
  ∧ Forall (λ e, to_requester guest e ∧ ¬ to_group e)
      (emitted (handleQuery cast_query guest) before_expiry)
  ∧ (handleQuery_firewall cast_query guest before_expiry).2
    = add_events (emitted (handleQuery_firewall cast_query guest) before_expiry)
        before_expiry
  ∧ Forall (λ e, to_requester guest e ∧ ¬ to_group e)
      (emitted (handleQuery_firewall cast_query guest) before_expiry).
Proof.
  apply (responses_are_unicast (H := platform) cast_query guest before_expiry).
  discriminate.
Defined.

(** C5, at an instance: the query of Scenario A. *)
Lemma relevance_is_exact_match_witness :
  (isGoogleCast (ptr_query "_googlecast._tcp.local") = true ↔
     ∃ qs q, questions (ptr_query "_googlecast._tcp.local") = Some qs ∧ In q qs
             ∧ q_name q = "_googlecast._tcp.local" ∧ q_type q = "PTR")
  ∧ (isGoogleCast (ptr_query "_googlecast._tcp.local") = false →
       handleQuery cast_query guest before_expiry = (Normal tt, before_expiry)
       ∧ emitted (handleQuery cast_query guest) before_expiry = []).
Proof.
  apply (relevance_is_exact_match (H := platform) cast_query (ptr_query "_googlecast._tcp.local")
           guest before_expiry).
  reflexivity.
Defined.

(** C5 as stated fails: a PTR question whose name matches the service
    name without regard to case is not taken as relevant, and the guest
    who is answered for the lower-case name gets nothing. *)
Lemma capital_query_is_ignored :
  relevant_ignoring_case (ptr_query "_GoogleCast._TCP.local") = true
  ∧ isGoogleCast (ptr_query "_GoogleCast._TCP.local") = false
  ∧ handleQuery capital_query guest before_expiry = (Normal tt, before_expiry)
  ∧ ∃ buf, handleQuery cast_query guest before_expiry
           = (Normal tt, add_events [Send buf 49152 "10.0.20.5"] before_expiry).
Proof.
  split; [reflexivity|]. split; [reflexivity|]. split; [vm_compute; reflexivity|].
  destruct scenario_A as (buf & _ & E). by exists buf.
Qed.

(** C2, at an instance: Scenario D, with a receiver of another room in
    the registry. *)
Lemma one_response_per_device_of_room_witness :
  (handleQuery cast_query guest two_receivers).1 = Normal tt
  ∧ Forall2 (λ d e, ∃ buf, buildResponse d = Normal buf
                           ∧ e = Send buf (port guest) (address guest))
      (List.filter (in_room (Some (JStr "101"))) [tv; tv_102; tv2])
      (emitted (handleQuery cast_query guest) two_receivers)
  ∧ length (emitted (handleQuery cast_query guest) two_receivers)
    = length (List.filter (in_room (Some (JStr "101"))) [tv; tv_102; tv2])
  ∧ (∀ r d, Some (JStr "101") = Some (JStr r) →
       in_room (Some (JStr "101")) d = true
       ↔ get (Some d) "room" = Normal (Some (JStr r))).
Proof.
  apply (one_response_per_device_of_room (H := platform) cast_query
           (ptr_query "_googlecast._tcp.local") guest two_receivers
           (Some (JStr "101")) [tv; tv_102; tv2]).
  - reflexivity.
  - reflexivity.
  - vm_compute. reflexivity.
  - reflexivity.
  - vm_compute. reflexivity.
  - repeat constructor; discriminate.
  - change (List.filter (in_room (Some (JStr "101"))) [tv; tv_102; tv2])
      with [tv; tv2].
    repeat constructor; eexists; reflexivity.
Defined.

(** Scenario D: two receivers in the room, two response packets. *)
Example scenario_D :
  List.filter (in_room (Some (JStr "101"))) [tv; tv_102; tv2] = [tv; tv2]
  ∧ length (emitted (handleQuery cast_query guest) two_receivers) = 2.
Proof. split; vm_compute; reflexivity. Qed.

(** C9, at an instance: Scenario C. *)
Lemma empty_room_is_silence_witness :
  handleQuery cast_query guest empty_room = (Normal tt, empty_room)
  ∧ emitted (handleQuery cast_query guest) empty_room = [].
Proof.
  apply (empty_room_is_silence (H := platform) cast_query
           (ptr_query "_googlecast._tcp.local") guest empty_room
           (Some (JStr "101"))).
  - reflexivity.
  - reflexivity.
  - vm_compute. reflexivity.
  - reflexivity.
  - apply (registry_no_match (H := platform) empty_room (Some (JStr "101")) [tv_102]).
    + vm_compute. reflexivity.
    + repeat constructor.
Defined.

(** Scenario D with the firewall integration of the guide: the rules
    requested, and their refusal. *)
Example scenario_D_firewall :
  List.filter (λ e, negb (is_send e))
    (emitted (handleQuery_firewall cast_query guest) two_receivers)
  = [ Exec (nft_add_element "10.0.20.5 . 10.0.30.9" 15);
      Exec (nft_add_element "10.0.20.5 . 10.0.30.10" 15) ]
  ∧ shell two_receivers (nft_add_element "10.0.20.5 . 10.0.30.9" 15) = false.
Proof. split; vm_compute; reflexivity. Qed.

(** C8, at an instance: the receivers of Scenario D. *)
Lemma instance_name_from_uuid_witness :
  instanceName tv
  = Normal ("Chromecast-" +:+ remove_dashes "a1b2c3d4-e5f6-7890-abcd-ef1234567890")
  ∧ ("a1b2c3d4-e5f6-7890-abcd-ef1234567890" = "0f1e2d3c-4b5a-6978-8796-a5b4c3d2e1f0" →
       instanceName tv = instanceName tv2)
  ∧ (instanceName tv = instanceName tv2 ↔
       remove_dashes "a1b2c3d4-e5f6-7890-abcd-ef1234567890"
       = remove_dashes "0f1e2d3c-4b5a-6978-8796-a5b4c3d2e1f0")
  ∧ (hyphen_layout "a1b2c3d4-e5f6-7890-abcd-ef1234567890"
     = hyphen_layout "0f1e2d3c-4b5a-6978-8796-a5b4c3d2e1f0" →
       instanceName tv = instanceName tv2 →
       "a1b2c3d4-e5f6-7890-abcd-ef1234567890" = "0f1e2d3c-4b5a-6978-8796-a5b4c3d2e1f0").
Proof.
  apply (instance_name_from_uuid tv tv2); reflexivity.
Defined.

(** C8 as stated fails: two devices whose uuids differ only by a hyphen
    get the same instance name. *)
Lemma hyphen_uuids_share_instance_name :
  get (Some tv) "uuid" = Normal (Some (JStr "a1b2c3d4-e5f6-7890-abcd-ef1234567890"))
  ∧ get (Some tv_hyphen) "uuid" = Normal (Some (JStr "a1b2c3d4e5f6-7890-abcd-ef1234567890"))
  ∧ String.eqb "a1b2c3d4-e5f6-7890-abcd-ef1234567890"
               "a1b2c3d4e5f6-7890-abcd-ef1234567890" = false
  ∧ instanceName tv = Normal "Chromecast-a1b2c3d4e5f67890abcdef1234567890"
  ∧ instanceName tv_hyphen = Normal "Chromecast-a1b2c3d4e5f67890abcdef1234567890".
Proof. repeat split; vm_compute; reflexivity. Qed.

(** C2 as stated fails on a registry with a defective entry. With a
    [null] entry the filter of [getDevicesForRoom] throws and nobody is
    answered, although two receivers of the guest's room are registered;
    with a record of the room that has no [uuid] the loop stops there, and
    the receiver listed after it is not answered. *)
Lemma defective_registry_loses_answers :
  getRoomForGuest "10.0.20.5" null_entry = (Normal (Some (JStr "101")), null_entry)
  ∧ files null_entry !! devicesFile = Some (Json (JArr [tv; JNull; tv2]))
  ∧ get (Some tv) "room" = Normal (Some (JStr "101"))
  ∧ get (Some tv2) "room" = Normal (Some (JStr "101"))
  ∧ handleQuery cast_query guest null_entry = (Normal tt, null_entry)
  ∧ getRoomForGuest "10.0.20.5" broken_registry
    = (Normal (Some (JStr "101")), broken_registry)
  ∧ files broken_registry !! devicesFile = Some (Json (JArr [tv; nameless; tv2]))
  ∧ get (Some nameless) "room" = Normal (Some (JStr "101"))
  ∧ ∃ buf, buildResponse tv = Normal buf
           ∧ handleQuery cast_query guest broken_registry
             = (Throw, add_events [Send buf 49152 "10.0.20.5"] broken_registry).
Proof.
  repeat split; try (vm_compute; reflexivity).
  eexists. split; [reflexivity|]. vm_compute. reflexivity.
Qed.

(** C6, evaluated: the guest of Scenario A is answered for the receiver
    at 10.0.30.9, and the responder executes no command: the datagram is
    the only action of the handler, and no allow rule is requested for the
    pair (10.0.20.5, 10.0.30.9). *)
Theorem answered_device_gets_no_allow_rule :
  get (Some tv) "ip" = Normal (Some (JStr "10.0.30.9"))
  ∧ (∃ buf, buildResponse tv = Normal buf
            ∧ emitted (handleQuery cast_query guest) before_expiry
              = [Send buf 49152 "10.0.20.5"])
  ∧ List.filter (λ e, negb (is_send e))
      (emitted (handleQuery cast_query guest) before_expiry) = [].
Proof.
  split; [reflexivity|]. split.
  - eexists. split; [reflexivity|]. vm_compute. reflexivity.
  - vm_compute. reflexivity.
Qed.

(** C7, evaluated: the receiver of Scenario A, whose room was set to 101
    in the registry, announces itself again; the upsert of the discovery
    listener writes the record back with [room: null]. *)
Theorem rediscovery_clears_assigned_room :
  files rediscovery !! devicesFile = Some (Json (JArr [tv]))
  ∧ get (Some tv) "room" = Normal (Some (JStr "101"))
  ∧ on_up ["10.0.30.9"] rediscovery
    = (Normal tt,
       set_files {[ devicesFile := Json (JArr [tv_rediscovered]) ]} rediscovery)
  ∧ get (Some tv_rediscovered) "room" = Normal null.
Proof. repeat split; vm_compute; reflexivity. Qed.

End Scenarios.

(** * Further properties of the code *)

Section Further.
Context `{Platform}.

Local Abbreviation respond ri :=
  (λ device : json,
     response ← lift (buildResponse device);
     socket_send response (port ri) (address ri)).

Local Abbreviation respond_and_allow ri :=
  (λ device : json,
     response ← lift (buildResponse device);
     _ ← socket_send response (port ri) (address ri);
     ip ← lift (get (Some device) "ip");
     _ ← allowPair (address ri) ip 15;
     mret tt).

(** ** The responder *)

(** X1: the [message] listener catches every error of the handler: it
    returns normally for every datagram and every content of the stores,
    sends what the handler sends, and for a datagram that does not decode
    it does nothing at all. *)
Theorem listener_survives_every_datagram msg ri w :
  (on_message msg ri w).1 = Normal tt
  ∧ (on_message msg ri w).2 = (handleQuery msg ri w).2
  ∧ (dns_decode msg = None → on_message msg ri w = (Normal tt, w)).
Proof.
  unfold on_message, try_catch.
  split; [|split].
  - by destruct (handleQuery msg ri w) as [[[]|] w'].
  - by destruct (handleQuery msg ri w) as [[[]|] w'].
  - intros E. unfold handleQuery. erewrite bind_throw; [done|]. by rewrite E.
Qed.

(** X2: the resolver authorizes only through a record of the store filed
    under the very address asked for: when it returns a room that the
    handler takes as paired, the pairing file parses, it holds a record
    under that address, the expiry of the record is not earlier than the
    clock, and the room is the one of that record; the world is left
    untouched. *)
Theorem authorized_only_by_record guestIP w room w' :
  getRoomForGuest guestIP w = (Normal room, w') →
  truthy room = true →
  w' = w
  ∧ ∃ pairings pairing expires_at,
      files w !! pairingsFile = Some (Json pairings)
      ∧ get (Some pairings) guestIP = Normal (Some pairing)
      ∧ truthy (Some pairing) = true
      ∧ get (Some pairing) "expires_at" = Normal expires_at
      ∧ Date_lt (new_Date expires_at) (Some (clock w)) = false
      ∧ get (Some pairing) "room" = Normal room.
Proof.
  unfold getRoomForGuest. run.
  destruct (files w !! pairingsFile) as [[pairings|raw]|] eqn:Ef; simpl;
    try (by intros [= <- <-] Ht).
  destruct (get (Some pairings) guestIP) as [pairing|] eqn:Ep; simpl;
    [|by intros [= <- <-] Ht].
  destruct (truthy pairing) eqn:Etp; simpl; [|by intros [= <- <-] Ht].
  destruct (get pairing "expires_at") as [e|] eqn:Ee; simpl;
    [|by intros [= <- <-] Ht].
  destruct (Date_lt (new_Date e) (Some (clock w))) eqn:Elt; simpl;
    [by intros [= <- <-] Ht|].
  destruct (get pairing "room") as [r|] eqn:Er; simpl;
    [|by intros [= <- <-] Ht].
  intros [= <- <-] Ht. split; [done|].
  destruct pairing as [pairing|]; [|done].
  by exists pairings, pairing, e.
Qed.

(** X3: a pairing record whose [room] is missing, [null] or the empty
    string is taken as "not paired": the handlers leave the world as it
    was, whatever the query and the expiry of the record. *)
Theorem record_without_room_is_not_paired msg ri w pairings fields :
  files w !! pairingsFile = Some (Json (JObj pairings)) →
  pairings !! address ri = Some (JObj fields) →
  truthy (fields !! "room") = false →
  (handleQuery msg ri w).2 = w ∧ (handleQuery_firewall msg ri w).2 = w.
Proof.
  intros Ef Ep Hr.
  assert (∃ r, getRoomForGuest (address ri) w = (Normal r, w) ∧ truthy r = false)
    as (r & Er & Hf).
  { rewrite (getRoomForGuest_record (address ri) w pairings (JObj fields)
               (fields !! "expires_at") (fields !! "room")); try done.
    destruct (Date_lt _ _); eauto. }
  split.
  - unfold handleQuery.
    destruct (dns_decode msg) as [p|]; [|by run].
    erewrite bind_normal; [|by run].
    destruct (isGoogleCast p); simpl; [|by run].
    erewrite bind_normal; [|exact Er]. by rewrite Hf.
  - unfold handleQuery_firewall.
    destruct (dns_decode msg) as [p|]; [|by run].
    erewrite bind_normal; [|by run].
    destruct (isGoogleCast p); simpl; [|by run].
    erewrite bind_normal; [|exact Er]. by rewrite Hf.
Qed.

Lemma filterM_normal room l ds :
  filterM (λ d, r ← get (Some d) "room"; Normal (strict_eq r room)) l = Normal ds →
  ds = List.filter (in_room room) l.
Proof.
  revert ds. induction l as [|d l IH]; simpl; intros ds.
  - by intros [= <-].
  - unfold in_room. destruct (get (Some d) "room") as [r|]; simpl; [|done].
    destruct (filterM _ l) as [ds'|]; [|done].
    intros [= <-]. rewrite (IH ds' eq_refl). by destruct (strict_eq r room).
Qed.

Lemma filterM_null room l :
  In JNull l →
  filterM (λ d, r ← get (Some d) "room"; Normal (strict_eq r room)) l = Throw.
Proof.
  induction l as [|d l IH]; simpl; [done|].
  intros [->|Hin]; [done|].
  destruct (get (Some d) "room"); simpl; [|done]. by rewrite IH.
Qed.

(** What [getDevicesForRoom] returns, for every content of the registry
    file: nothing, or the entries of the array that are in the room. *)
Lemma getDevicesForRoom_cases room w :
  ∃ ds, getDevicesForRoom room w = (Normal ds, w)
        ∧ (ds = [] ∨ ∃ registry,
             files w !! devicesFile = Some (Json (JArr registry))
             ∧ ds = List.filter (in_room room) registry).
Proof.
  unfold getDevicesForRoom. run.
  destruct (files w !! devicesFile) as [[devices|raw]|]; simpl; eauto.
  destruct devices; simpl; eauto.
  destruct (filterM _ elems) as [ds|] eqn:E; simpl; eauto.
  apply filterM_normal in E. exists ds. split; [done|]. right. eauto.
Qed.

(** X5: one [null] entry in the registry array hides every receiver: the
    filter throws on it, the error is swallowed, and the room is taken to
    have no device, so the guest is sent nothing. *)
Theorem null_entry_hides_every_device msg p ri w room registry :
  files w !! devicesFile = Some (Json (JArr registry)) →
  In JNull registry →
  dns_decode msg = Some p →
  getDevicesForRoom room w = (Normal [], w)
  ∧ (handleQuery msg ri w).1 = Normal tt
  ∧ (handleQuery msg ri w).2 = w.
Proof.
  intros Ef Hin Ep.
  assert (∀ r, getDevicesForRoom r w = (Normal [], w)) as Ed.
  { intros r. pose proof (filterM_null r registry Hin) as F.
    unfold getDevicesForRoom. run. rewrite Ef. simpl. by rewrite F. }
  split; [apply Ed|].
  unfold handleQuery. rewrite Ep. erewrite bind_normal; [|by run].
  destruct (isGoogleCast p); simpl; [|by run].
  destruct (getRoomForGuest_pure (address ri) w) as [r Er].
  erewrite bind_normal; [|exact Er].
  destruct (truthy r); simpl; [|by run].
  erewrite bind_normal; [|apply Ed]. done.
Qed.

Lemma respond_until_broken ri before d after w :
  Forall answerable before →
  buildResponse d = Throw →
  ∃ evs,
    for_of (before ++ d :: after) (respond ri) w = (Throw, add_events evs w)
    ∧ Forall2 (λ d e, ∃ buf, buildResponse d = Normal buf
                             ∧ e = Send buf (port ri) (address ri)) before evs.
Proof.
  intros Hb Hd. revert w. induction Hb as [|x before [buf Hx] _ IH]; intros w.
  - exists []. rewrite add_events_nil. split; [|constructor]. simpl.
    erewrite bind_throw; [done|]. run. by rewrite Hd.
  - destruct (IH (add_events [Send buf (port ri) (address ri)] w)) as (evs & E & F).
    exists (Send buf (port ri) (address ri) :: evs). split.
    + simpl. erewrite bind_normal; [|run; by rewrite Hx].
      unfold add_event. by rewrite E, add_events_app.
    + constructor; eauto.
Qed.

(** X4: a record of the room for which no response can be built (its
    [uuid] is missing or not a string, or the encoder rejects it) ends the
    loop with an error: the devices listed before it have been answered,
    the ones after it get nothing. *)
Theorem broken_record_stops_the_answers msg p ri w room registry before d after :
  dns_decode msg = Some p →
  isGoogleCast p = true →
  getRoomForGuest (address ri) w = (Normal room, w) →
  truthy room = true →
  files w !! devicesFile = Some (Json (JArr registry)) →
  Forall (λ d, d ≠ JNull) registry →
  List.filter (in_room room) registry = (before ++ d :: after)%list →
  Forall answerable before →
  buildResponse d = Throw →
  (handleQuery msg ri w).1 = Throw
  ∧ Forall2 (λ d e, ∃ buf, buildResponse d = Normal buf
                           ∧ e = Send buf (port ri) (address ri))
      before (emitted (handleQuery msg ri) w).
Proof.
  intros Ep Hq Er Ht Ef Hl Hsplit Hb Hd.
  destruct (respond_until_broken ri before d after w Hb Hd) as (evs & E & F).
  assert (handleQuery msg ri w = (Throw, add_events evs w)) as Eh.
  { unfold handleQuery. rewrite Ep. erewrite bind_normal; [|by run].
    rewrite Hq. simpl. erewrite bind_normal; [|exact Er].
    rewrite Ht. simpl.
    erewrite bind_normal; [|by apply getDevicesForRoom_registry].
    rewrite Hsplit. exact E. }
  rewrite (emitted_add_events _ w evs) by (by rewrite Eh).
  by rewrite Eh.
Qed.

Lemma respond_provenance ri ds w :
  ∃ c evs,
    for_of ds (respond ri) w = (c, add_events evs w)
    ∧ Forall (λ e, ∃ d buf, In d ds ∧ buildResponse d = Normal buf
                            ∧ e = Send buf (port ri) (address ri)) evs.
Proof.
  revert w. induction ds as [|d ds IH]; intros w.
  - exists (Normal tt), []. by rewrite add_events_nil.
  - destruct (buildResponse d) as [buf|] eqn:Hd; simpl.
    + destruct (IH (add_events [Send buf (port ri) (address ri)] w))
        as (c & evs & E & F).
      exists c, (Send buf (port ri) (address ri) :: evs). split.
      * erewrite bind_normal; [|run; by rewrite Hd].
        unfold add_event. by rewrite E, add_events_app.
      * constructor; [exists d, buf; by repeat split; try left|].
        eapply Forall_impl; [exact F|].
        intros e (d' & b & Hin & Hb & ->). exists d', b. by repeat split; try right.
    + exists Throw, []. rewrite add_events_nil. split; [|constructor].
      erewrite bind_throw; [done|]. run. by rewrite Hd.
Qed.

(** X6: the handler never answers for a device of another room: for every
    datagram and every content of the stores, each datagram it sends is
    the response built from an entry of the registry whose [room] is
    strictly equal to the room the resolver returned for the sender. *)
Theorem answers_only_devices_of_the_room msg ri w :
  Forall (λ e, ∃ room registry d buf,
            getRoomForGuest (address ri) w = (Normal room, w)
            ∧ truthy room = true
            ∧ files w !! devicesFile = Some (Json (JArr registry))
            ∧ In d registry
            ∧ in_room room d = true
            ∧ buildResponse d = Normal buf
            ∧ e = Send buf (port ri) (address ri))
    (emitted (handleQuery msg ri) w).
Proof.
  assert (∃ c evs, handleQuery msg ri w = (c, add_events evs w)
            ∧ Forall (λ e, ∃ room registry d buf,
                getRoomForGuest (address ri) w = (Normal room, w)
                ∧ truthy room = true
                ∧ files w !! devicesFile = Some (Json (JArr registry))
                ∧ In d registry
                ∧ in_room room d = true
                ∧ buildResponse d = Normal buf
                ∧ e = Send buf (port ri) (address ri)) evs)
    as (c & evs & E & F).
  { unfold handleQuery.
    destruct (dns_decode msg) as [p|] eqn:Ep.
    2:{ exists Throw, []. rewrite add_events_nil. by run. }
    erewrite bind_normal; [|by run].
    destruct (isGoogleCast p); simpl.
    2:{ exists (Normal tt), []. rewrite add_events_nil. by run. }
    destruct (getRoomForGuest_pure (address ri) w) as [room Er].
    erewrite bind_normal; [|exact Er].
    destruct (truthy room) eqn:Ht; simpl.
    2:{ exists (Normal tt), []. rewrite add_events_nil. by run. }
    destruct (getDevicesForRoom_cases room w) as (ds & Ed & Hds).
    erewrite bind_normal; [|exact Ed].
    destruct (respond_provenance ri ds w) as (c & evs & E & F).
    exists c, evs. split; [done|].
    eapply Forall_impl; [exact F|].
    intros e (d & buf & Hin & Hb & ->).
    destruct Hds as [->|(registry & Ef & ->)]; [done|].
    apply filter_In in Hin as [Hin Hroom].
    by exists room, registry, d, buf. }
  by rewrite (emitted_add_events _ w evs) by (by rewrite E).
Qed.

Lemma respond_and_allow_provenance ri ds w :
  ∃ c evs,
    for_of ds (respond_and_allow ri) w = (c, add_events evs w)
    ∧ Forall (λ e, ∃ d, In d ds ∧ In e (served ri d)) evs.
Proof.
  revert w. induction ds as [|d ds IH]; intros w.
  - exists (Normal tt), []. by rewrite add_events_nil.
  - destruct (buildResponse d) as [buf|] eqn:Hd; simpl.
    + destruct (IH (add_events (served ri d) w)) as (c & evs & E & F).
      exists c, (served ri d ++ evs)%list. split.
      * erewrite bind_normal; [|apply respond_and_allow_served; by exists buf].
        by rewrite E, add_events_app.
      * apply Forall_app. split.
        -- apply List.Forall_forall. intros e He. exists d. split; [by left|done].
        -- eapply Forall_impl; [exact F|].
           intros e (d' & Hin & He). exists d'. split; [by right|done].
    + exists Throw, []. rewrite add_events_nil. split; [|constructor].
      erewrite bind_throw; [done|by apply respond_and_allow_thrown].
Qed.




Lemma remove_dashes_no_hyphen s :
  ¬ In "-"%char (String.list_ascii_of_string (remove_dashes s)).
Proof.
  induction s as [|c r IH]; simpl; [tauto|].
  destruct (Ascii.eqb c "-") eqn:E; [done|].
  simpl. intros [->|Hin]; [|done]. by rewrite Ascii.eqb_refl in E.
Qed.

(** X8: an instance name exists exactly for a record whose [uuid] is a
    string; it is then [Chromecast-] followed by a label in which no hyphen
    is left, and stripping the hyphens of that label again changes
    nothing. *)
Theorem instance_label_has_no_hyphen d :
  (∀ name, instanceName d = Normal name →
     ∃ u, get (Some d) "uuid" = Normal (Some (JStr u))
          ∧ name = "Chromecast-" +:+ remove_dashes u
          ∧ ¬ In "-"%char (String.list_ascii_of_string (remove_dashes u))
          ∧ remove_dashes (remove_dashes u) = remove_dashes u)
  ∧ (instanceName d = Throw ↔
       ∀ u, get (Some d) "uuid" ≠ Normal (Some (JStr u))).
Proof.
  assert (∀ s, ¬ In "-"%char (String.list_ascii_of_string s) → remove_dashes s = s)
    as Hid.
  { induction s as [|c r IH]; simpl; [done|].
    intros Hn. destruct (Ascii.eqb c "-") eqn:E.
    - apply Ascii.eqb_eq in E. destruct Hn. by left.
    - f_equal. apply IH. intros Hin. apply Hn. by right. }
  unfold instanceName.
  destruct (get (Some d) "uuid") as [[[| | |u| |]|]|] eqn:Eu; simpl;
    (split; [intros name; try done|split; try done]).
  - intros [= <-]. exists u. repeat split; try done.
    + apply remove_dashes_no_hyphen.
    + apply Hid, remove_dashes_no_hyphen.
  - intros Hn. by destruct (Hn u).
Qed.

(** ** The discovery listener *)

Lemma strict_eq_str v u : strict_eq v (Some (JStr u)) = true ↔ v = Some (JStr u).
Proof.
  destruct v as [[]|]; unfold strict_eq; split; try done; try (by intros [=]).
  - intros E. by apply String.eqb_eq in E as ->.
  - intros [= ->]. apply String.eqb_refl.
Qed.

(** [findIndex], read backwards: it found nothing and every test was
    false, or it stopped at the first entry whose test was true. *)
Lemma findIndex_from_inv pred l i r :
  findIndex_from pred l i = Normal r →
  (r = None ∧ Forall (λ d, pred d = Normal false) l)
  ∨ (∃ l1 d l2, l = (l1 ++ d :: l2)%list
                ∧ Forall (λ d, pred d = Normal false) l1
                ∧ pred d = Normal true
                ∧ r = Some (i + length l1)).
Proof.
  revert i. induction l as [|d l IH]; simpl; intros i.
  - intros [= <-]. by left.
  - destruct (pred d) as [[]|] eqn:Ed; [| |done].
    + intros [= <-]. right. exists [], d, l. repeat split; try done.
      simpl. f_equal. lia.
    + intros E. destruct (IH _ E) as [[-> F]|(l1 & d' & l2 & -> & F & Ed' & ->)].
      * left. split; [done|]. by constructor.
      * right. exists (d :: l1), d', l2. repeat split; try done.
        -- by constructor.
        -- simpl. f_equal. lia.
Qed.

Lemma findIndex_from_found pred l1 d l2 i :
  Forall (λ d, pred d = Normal false) l1 →
  pred d = Normal true →
  findIndex_from pred (l1 ++ d :: l2) i = Normal (Some (i + length l1)).
Proof.
  intros F Ed. revert i. induction F as [|x l1 Ex _ IH]; intros i; simpl.
  - rewrite Ed. f_equal. f_equal. lia.
  - rewrite Ex, IH. f_equal. f_equal. lia.
Qed.

Lemma findIndex_from_none pred l i :
  Forall (λ d, pred d = Normal false) l →
  findIndex_from pred l i = Normal None.
Proof.
  intros F. revert i. induction F as [|x l Ex _ IH]; intros i; simpl; [done|].
  by rewrite Ex, IH.
Qed.

(** [saveDevice], step by step. *)
Lemma saveDevice_run deviceInfo w :
  saveDevice deviceInfo w =
  match (match files w !! devicesFile with
         | Some (Json j) => j
         | _ => JArr []
         end) with
  | JArr l =>
      match findIndex_from (same_uuid deviceInfo) l 0 with
      | Normal (Some i) =>
          writeFile devicesFile
            (Json (JArr (<[i := spread (l !! i) (Some deviceInfo)]> l))) w
      | Normal None => writeFile devicesFile (Json (JArr (l ++ [deviceInfo]))) w
      | Throw => (Throw, w)
      end
  | _ => (Throw, w)
  end.
Proof.
  unfold saveDevice, same_uuid. run.
  destruct (files w !! devicesFile) as [[j|raw]|]; simpl; try done.
  destruct j; simpl; try done.
  by destruct (findIndex_from _ elems 0) as [[i|]|].
Qed.

Lemma middle_lookup {A} (l1 l2 : list A) (x : A) :
  ((l1 ++ x :: l2)%list) !! (0 + length l1) = Some x.
Proof. by apply list_lookup_middle. Qed.

Lemma middle_insert {A} (l1 l2 : list A) (x y : A) :
  <[0 + length l1 := y]> ((l1 ++ x :: l2)%list) = (l1 ++ y :: l2)%list.
Proof.
  replace (0 + length l1) with (length l1 + 0) by lia.
  by rewrite insert_app_r.
Qed.

Lemma writeFile_done path data (w : world Buffer) :
  writable w path = true →
  writeFile path data w = (Normal tt, set_files (<[path := data]> (files w)) w).
Proof. intros E. unfold writeFile. by rewrite E. Qed.

(** X9: when the registry file is missing, unreadable or not JSON,
    [saveDevice] starts from an empty registry: the file is written anew
    with the saved record as its only entry. *)
Theorem lost_registry_is_started_anew deviceInfo w :
  (files w !! devicesFile = None
   ∨ ∃ raw, files w !! devicesFile = Some (Text raw)) →
  writable w devicesFile = true →
  saveDevice deviceInfo w
  = (Normal tt,
     set_files (<[devicesFile := Json (JArr [deviceInfo])]> (files w)) w).
Proof.
  intros Hf Hw. rewrite saveDevice_run.
  destruct Hf as [->|[raw ->]]; simpl; by apply writeFile_done.
Qed.

(** X10: a record whose [uuid] matches none of the registry is appended
    after the existing entries, which are all kept as they are. *)
Theorem unknown_device_is_appended deviceInfo w registry :
  registry_of (files w) = Some registry →
  Forall (λ d, same_uuid deviceInfo d = Normal false) registry →
  writable w devicesFile = true →
  saveDevice deviceInfo w
  = (Normal tt,
     set_files (<[devicesFile := Json (JArr (registry ++ [deviceInfo]))]> (files w)) w).
Proof.
  intros Hr F Hw. rewrite saveDevice_run.
  unfold registry_of in Hr.
  destruct (files w !! devicesFile) as [[[]|]|]; try done.
  injection Hr as ->.
  rewrite (findIndex_from_none _ registry 0 F). by apply writeFile_done.
Qed.

(** X11: a record whose [uuid] matches an entry of the registry replaces
    the first such entry, in place, by the merge of the two: the entries
    before and after it are untouched, every field the new record carries
    has the new value, and every field it does not carry keeps the old
    one. *)
Theorem known_device_is_merged_in_place deviceInfo w before d after :
  registry_of (files w) = Some (before ++ d :: after)%list →
  Forall (λ d, same_uuid deviceInfo d = Normal false) before →
  same_uuid deviceInfo d = Normal true →
  writable w devicesFile = true →
  saveDevice deviceInfo w
  = (Normal tt,
     set_files (<[devicesFile :=
                    Json (JArr (before ++ spread (Some d) (Some deviceInfo) :: after))]>
                  (files w)) w)
  ∧ (∀ k v, own_props (Some deviceInfo) !! k = Some v →
       get (Some (spread (Some d) (Some deviceInfo))) k = Normal (Some v))
  ∧ (∀ k, own_props (Some deviceInfo) !! k = None →
       get (Some (spread (Some d) (Some deviceInfo))) k
       = Normal (own_props (Some d) !! k)).
Proof.
  intros Hr F Ed Hw. split; [|split].
  - rewrite saveDevice_run. unfold registry_of in Hr.
    destruct (files w !! devicesFile) as [[[]|]|]; try done.
    injection Hr as ->.
    rewrite (findIndex_from_found _ before d after 0 F Ed).
    rewrite middle_lookup, middle_insert. by apply writeFile_done.
  - intros k v. apply spread_supplied.
  - intros k. apply spread_kept.
Qed.

Lemma saveDevice_failed deviceInfo w :
  (saveDevice deviceInfo w).1 = Throw → (saveDevice deviceInfo w).2 = w.
Proof.
  rewrite saveDevice_run. unfold writeFile.
  destruct (files w !! devicesFile) as [[[]|]|]; simpl; try done;
    try (match goal with
         | |- context [findIndex_from ?p ?l ?i] =>
             destruct (findIndex_from p l i) as [[?|]|]
         end); try done;
    by destruct (writable w devicesFile).
Qed.


Lemma uuid_key_get d u : uuid_key d = Some u ↔ get (Some d) "uuid" = Normal (Some (JStr u)).
Proof.
  unfold uuid_key. destruct (get (Some d) "uuid") as [[[]|]|]; split; try done;
    by intros [= ->].
Qed.

Lemma same_uuid_keyed m u d u' :
  m !! "uuid" = Some (JStr u) →
  uuid_key d = Some u' →
  same_uuid (JObj m) d = Normal (String.eqb u' u).
Proof.
  intros Em Ed. apply uuid_key_get in Ed. unfold same_uuid.
  rewrite Ed, get_obj, Em. done.
Qed.

Lemma uuid_key_merged m u d :
  m !! "uuid" = Some (JStr u) →
  uuid_key (spread (Some d) (Some (JObj m))) = Some u.
Proof. intros Em. apply uuid_key_get. by apply spread_supplied. Qed.

Lemma registry_of_written (fs : gmap string file) l :
  registry_of (<[devicesFile := Json (JArr l)]> fs) = Some l.
Proof. unfold registry_of. by rewrite lookup_insert_eq. Qed.

(** X13: [uuid] stays a key of the registry: when every entry has a
    string [uuid] and no two entries share one, a successful save of an
    object with a string [uuid] leaves a registry with the same property,
    in which that uuid occurs, and which has the same entries or one
    more. *)
Theorem save_keeps_uuid_a_key m u w w' registry :
  registry_of (files w) = Some registry →
  keyed registry →
  m !! "uuid" = Some (JStr u) →
  saveDevice (JObj m) w = (Normal tt, w') →
  ∃ registry',
    registry_of (files w') = Some registry'
    ∧ keyed registry'
    ∧ In (Some u) (List.map uuid_key registry')
    ∧ (length registry' = length registry
       ∨ length registry' = S (length registry)).
Proof.
  intros Hr [Hk Hn] Em. rewrite saveDevice_run. unfold registry_of in Hr.
  destruct (files w !! devicesFile) as [[[]|]|]; try done.
  injection Hr as ->.
  destruct (findIndex_from _ registry 0) as [r|] eqn:Ef; [|done].
  apply findIndex_from_inv in Ef
    as [[-> F]|(l1 & d & l2 & -> & F & Ed & ->)].
  - unfold writeFile. destruct (writable w devicesFile); [|done].
    intros [= <-]. exists (registry ++ [JObj m])%list.
    split; [apply registry_of_written|].
    assert (uuid_key (JObj m) = Some u) as Eu
      by (apply uuid_key_get; by rewrite get_obj, Em).
    split; [split|split].
    + apply Forall_app. split; [done|]. constructor; [by rewrite Eu|done].
    + rewrite List.map_app. simpl. apply NoDup_app. split; [done|]. split.
      * intros k Hin Hk'. apply list_elem_of_In in Hin.
        apply list_elem_of_In in Hk' as [<-|[]]. rewrite Eu in Hin.
        apply List.in_map_iff in Hin as (d & Ed & Hd).
        apply list_elem_of_In in Hd.
        pose proof (proj1 (Forall_forall _ _) F d Hd) as Efalse. simpl in Efalse.
        rewrite (same_uuid_keyed m u d u Em Ed), String.eqb_refl in Efalse.
        discriminate.
      * apply NoDup_singleton.
    + rewrite List.map_app. apply List.in_or_app. right. by left.
    + right. rewrite length_app. simpl. lia.
  - rewrite middle_lookup, middle_insert.
    unfold writeFile. destruct (writable w devicesFile); [|done].
    intros [= <-]. exists (l1 ++ spread (Some d) (Some (JObj m)) :: l2)%list.
    split; [apply registry_of_written|].
    apply Forall_app in Hk as [Hk1 Hk2]. apply Forall_cons in Hk2 as [[u' Eu'] Hk2].
    rewrite (same_uuid_keyed m u d u' Em Eu') in Ed.
    injection Ed as Ed. apply String.eqb_eq in Ed as ->.
    assert (List.map uuid_key (l1 ++ spread (Some d) (Some (JObj m)) :: l2)
            = List.map uuid_key (l1 ++ d :: l2)) as Ekeys.
    { rewrite !List.map_app. simpl. by rewrite (uuid_key_merged m u d Em), Eu'. }
    split; [split|split].
    + apply Forall_app. split; [done|].
      constructor; [by rewrite (uuid_key_merged m u d Em)|done].
    + by rewrite Ekeys.
    + rewrite Ekeys, List.map_app. apply List.in_or_app. right. left. done.
    + left. rewrite !length_app. done.
Qed.

(** X14: saving the same record twice is saving it once: after a
    successful save of an object with a string [uuid], saving it again
    succeeds and leaves the world as the first save left it. *)
Theorem save_is_idempotent m u w w' :
  m !! "uuid" = Some (JStr u) →
  saveDevice (JObj m) w = (Normal tt, w') →
  saveDevice (JObj m) w' = (Normal tt, w').
Proof.
  intros Em. rewrite !saveDevice_run.
  assert (same_uuid (JObj m) (JObj m) = Normal true) as Eself.
  { unfold same_uuid. rewrite get_obj, Em. simpl. f_equal. by apply strict_eq_str. }
  assert (∀ l x, writable w devicesFile = true →
            writeFile devicesFile (Json (JArr l))
              (set_files (<[devicesFile := x]> (files w)) w)
            = (Normal tt, set_files (<[devicesFile := Json (JArr l)]> (files w)) w))
    as Hwrite.
  { intros l x Hw. unfold writeFile, set_files. simpl. rewrite Hw.
    by rewrite insert_insert_eq. }
  destruct (match files w !! devicesFile with
            | Some (Json j) => j | _ => JArr [] end) as [| | | |l|]; try done.
  destruct (findIndex_from _ l 0) as [r|] eqn:Ef; [|done].
  apply findIndex_from_inv in Ef
    as [[-> F]|(l1 & d & l2 & -> & F & Ed & ->)].
  - unfold writeFile at 1. destruct (writable w devicesFile) eqn:Hw; [|done].
    intros [= <-]. simpl. rewrite lookup_insert_eq.
    rewrite (findIndex_from_found _ l (JObj m) [] 0 F Eself).
    rewrite middle_lookup, middle_insert. unfold spread. simpl.
    rewrite (idemp_L (∪)). by apply Hwrite.
  - rewrite middle_lookup, middle_insert.
    unfold writeFile at 1. destruct (writable w devicesFile) eqn:Hw; [|done].
    intros [= <-]. simpl. rewrite lookup_insert_eq.
    assert (same_uuid (JObj m) (spread (Some d) (Some (JObj m))) = Normal true)
      as Emerged.
    { unfold same_uuid. rewrite (spread_supplied (Some d) (Some (JObj m)) "uuid" (JStr u) Em).
      rewrite get_obj, Em. simpl. f_equal. by apply strict_eq_str. }
    rewrite (findIndex_from_found _ l1 _ l2 0 F Emerged).
    rewrite middle_lookup, middle_insert.
    assert (spread (Some (spread (Some d) (Some (JObj m)))) (Some (JObj m))
            = spread (Some d) (Some (JObj m))) as ->.
    { unfold spread. simpl. by rewrite (assoc_L (∪)), (idemp_L (∪)). }
    by apply Hwrite.
Qed.

(** What a save changes: the devices file, and nothing else. *)
Lemma saveDevice_frame deviceInfo w :
  ∃ fs, (saveDevice deviceInfo w).2 = set_files fs w
        ∧ ∀ path, path ≠ devicesFile → fs !! path = files w !! path.
Proof.
  assert (set_files (files w) w = w) as Eid by (by destruct w).
  rewrite saveDevice_run. unfold writeFile.
  destruct (match files w !! devicesFile with
            | Some (Json j) => j | _ => JArr [] end);
    try (exists (files w); by rewrite Eid).
  destruct (findIndex_from _ elems 0) as [[i|]|];
    try (exists (files w); by rewrite Eid);
    (destruct (writable w devicesFile); [|exists (files w); by rewrite Eid]);
    eexists; (split; [reflexivity|]); intros path Hp; by rewrite lookup_insert_ne.
Qed.

Lemma fetchDeviceInfo_pure ip w c w' :
  fetchDeviceInfo ip w = (c, w') → w' = w.
Proof. unfold fetchDeviceInfo. destruct (http w !! ip); by intros [= _ <-]. Qed.

(** The listener of [up], case by case: it returns normally, having done
    nothing or having saved the record fetched at one address. *)
Lemma on_up_cases addresses w :
  ∃ w', on_up addresses w = (Normal tt, w')
        ∧ (w' = w
           ∨ ∃ ip deviceInfo,
               fetchDeviceInfo ip w = (Normal deviceInfo, w)
               ∧ saveDevice deviceInfo w = (Normal tt, w')).
Proof.
  unfold on_up.
  destruct (match List.find (String.prefix "192.168.25.") addresses with
            | Some a => Some a | None => head addresses end) as [ip|];
    [|exists w; split; [done|by left]].
  destruct (String.eqb ip ""); [exists w; split; [done|by left]|].
  unfold try_catch.
  destruct (fetchDeviceInfo ip w) as [[info|] w1] eqn:Ef.
  - pose proof (fetchDeviceInfo_pure _ _ _ _ Ef) as ->.
    erewrite bind_normal; [|exact Ef].
    destruct (saveDevice info w) as [[[]|] w2] eqn:Es.
    + exists w2. split; [done|]. right. by exists ip, info.
    + pose proof (saveDevice_failed info w) as Hw. rewrite Es in Hw.
      simpl in Hw. rewrite Hw by done. exists w. split; [done|by left].
  - pose proof (fetchDeviceInfo_pure _ _ _ _ Ef) as ->.
    erewrite bind_throw; [|exact Ef]. exists w. split; [done|by left].
Qed.

Lemma getRoomForGuest_depends guestIP (w1 w2 : world Buffer) :
  files w1 !! pairingsFile = files w2 !! pairingsFile →
  clock w1 = clock w2 →
  (getRoomForGuest guestIP w1).1 = (getRoomForGuest guestIP w2).1.
Proof.
  intros Ef Ec. unfold getRoomForGuest. run. rewrite Ef.
  destruct (files w2 !! pairingsFile) as [[pairings|raw]|]; simpl; try done.
  destruct (get (Some pairings) guestIP) as [pairing|]; simpl; [|done].
  destruct (truthy pairing); simpl; [|done].
  destruct (get pairing "expires_at") as [e|]; simpl; [|done].
  rewrite Ec.
  destruct (Date_lt (new_Date e) (Some (clock w2))); simpl; [done|].
  by destruct (get pairing "room").
Qed.

(** X15: whatever addresses a service announces and whatever the stores
    hold, the listener of [up] returns normally, sends nothing, runs no
    command, writes no file but the registry, and leaves the answer of the
    resolver for every guest address as it was. *)
Theorem discovery_never_changes_authorization addresses guestIP w :
  (on_up addresses w).1 = Normal tt
  ∧ trace (on_up addresses w).2 = trace w
  ∧ (∀ path, path ≠ devicesFile →
       files (on_up addresses w).2 !! path = files w !! path)
  ∧ (getRoomForGuest guestIP (on_up addresses w).2).1
    = (getRoomForGuest guestIP w).1.
Proof.
  destruct (on_up_cases addresses w) as (w' & E & Hw'). rewrite E. simpl.
  split; [done|].
  destruct Hw' as [->|(ip & info & _ & Es)]; [done|].
  destruct (saveDevice_frame info w) as (fs & Efs & Hfs).
  rewrite Es in Efs. simpl in Efs. subst w'. simpl.
  split; [done|]. split; [done|].
  apply getRoomForGuest_depends; simpl; [|done]. by apply Hfs.
Qed.

Lemma substring_all s : String.substring 0 (String.length s) s = s.
Proof. induction s as [|c r IH]; simpl; [done|]. by rewrite IH. Qed.

Lemma remove_first_uuid_prefix u : remove_first "uuid:" ("uuid:" +:+ u) = u.
Proof.
  destruct u as [|c r]; simpl; [done|].
  by rewrite substring_all.
Qed.

Lemma null_room_is_no_room room d :
  get (Some d) "room" = Normal null → truthy room = true → in_room room d = false.
Proof.
  intros Ed Ht. unfold in_room. rewrite Ed.
  by destruct room as [[]|].
Qed.

(** X16: the record built for a discovered receiver: its [uuid] is the
    UDN of the description with the first [uuid:] removed (a UDN written
    [uuid:] followed by an identifier gives that identifier), its [ip] is
    the address asked, and its [room] is [null], so that it belongs to no
    room a guest can be paired to; fetching changes nothing in the
    world. *)
Theorem fetched_record_has_no_room ip w deviceInfo w' :
  fetchDeviceInfo ip w = (Normal deviceInfo, w') →
  w' = w
  ∧ (∃ desc, http w !! ip = Some desc
             ∧ get (Some deviceInfo) "uuid"
               = Normal (Some (JStr (remove_first "uuid:" (UDN desc))))
             ∧ ∀ u, UDN desc = "uuid:" +:+ u → uuid_key deviceInfo = Some u)
  ∧ get (Some deviceInfo) "ip" = Normal (Some (JStr ip))
  ∧ get (Some deviceInfo) "room" = Normal null
  ∧ ∀ room, truthy room = true → in_room room deviceInfo = false.
Proof.
  intros E. split; [by eapply fetchDeviceInfo_pure|].
  pose proof (fetchDeviceInfo_room ip w deviceInfo w' E) as Hroom.
  unfold fetchDeviceInfo in E. destruct (http w !! ip) as [desc|] eqn:Eh; [|done].
  injection E as <- <-.
  split; [|split; [done|split; [done|]]].
  - exists desc. split; [done|]. split; [done|].
    intros u Hu. apply uuid_key_get. rewrite Hu, remove_first_uuid_prefix. done.
  - intros room Ht. by apply null_room_is_no_room.
Qed.

Lemma filterM_normal_nonnull room l ds :
  filterM (λ d, r ← get (Some d) "room"; Normal (strict_eq r room)) l = Normal ds →
  Forall (λ d, d ≠ JNull) l.
Proof.
  revert ds. induction l as [|d l IH]; simpl; intros ds; [done|].
  destruct (get (Some d) "room") as [r|] eqn:Ed; simpl; [|done].
  destruct (filterM _ l) as [ds'|]; [|done].
  intros _. constructor; [by intros ->|by eapply IH].
Qed.

Lemma devices_seen_cases room w :
  devices_seen room w = []
  ∨ ∃ l, registry_of (files w) = Some l
         ∧ Forall (λ d, d ≠ JNull) l
         ∧ devices_seen room w = List.filter (in_room room) l.
Proof.
  unfold devices_seen, getDevicesForRoom, registry_of. run.
  destruct (files w !! devicesFile) as [[devices|raw]|]; simpl; try by left.
  destruct devices; simpl; try by left.
  destruct (filterM _ elems) as [ds|] eqn:E; simpl; [|by left].
  right. exists elems. split; [done|]. split.
  - by eapply filterM_normal_nonnull.
  - by apply filterM_normal in E.
Qed.

Lemma devices_seen_registry room w l :
  registry_of (files w) = Some l →
  Forall (λ d, d ≠ JNull) l →
  devices_seen room w = List.filter (in_room room) l.
Proof.
  intros Hr Hl. unfold devices_seen, registry_of in *.
  destruct (files w !! devicesFile) as [[[]|]|] eqn:Ef; try done.
  injection Hr as ->. by rewrite (getDevicesForRoom_registry room w l Ef Hl).
Qed.

Lemma fetched_own_room ip w deviceInfo w' :
  fetchDeviceInfo ip w = (Normal deviceInfo, w') →
  own_props (Some deviceInfo) !! "room" = Some JNull.
Proof.
  unfold fetchDeviceInfo. destruct (http w !! ip); [|done].
  intros [= <- _]. done.
Qed.

Lemma same_uuid_nonnull deviceInfo d b :
  same_uuid deviceInfo d = Normal b → d ≠ JNull.
Proof. by intros E ->. Qed.

(** X17: discovery never brings a device into a guest's view: for every
    room a guest can be paired to, the devices a query of that room would
    be answered for after the listener of [up] has run were already so
    before it ran. A device appears in a room only through an assignment
    made outside of discovery. *)
Theorem discovery_never_reveals_a_device addresses room w :
  truthy room = true →
  ∀ d, In d (devices_seen room (on_up addresses w).2) →
       In d (devices_seen room w).
Proof.
  intros Ht d.
  destruct (on_up_cases addresses w) as (w' & E & Hw'). rewrite E. simpl.
  destruct Hw' as [->|(ip & info & Efetch & Es)]; [done|].
  pose proof (fetched_own_room _ _ _ _ Efetch) as Hown.
  assert (in_room room info = false) as Hinfo.
  { apply null_room_is_no_room; [|done]. by eapply fetchDeviceInfo_room. }
  assert (∀ d0, in_room room (spread (Some d0) (Some info)) = false) as Hmerged.
  { intros d0. apply null_room_is_no_room; [|done]. by apply spread_supplied. }
  destruct (devices_seen_cases room w') as [->|(l' & Hr' & Hl' & ->)]; [done|].
  rewrite saveDevice_run in Es. unfold writeFile in Es.
  destruct (files w !! devicesFile) as [[j|raw]|] eqn:Ef; simpl in Es.
  - destruct j as [| | | |l|]; try done.
    assert (registry_of (files w) = Some l) as Hr
      by (unfold registry_of; by rewrite Ef).
    destruct (findIndex_from _ l 0) as [r|] eqn:Ei; [|done].
    apply findIndex_from_inv in Ei
      as [[-> F]|(l1 & d0 & l2 & -> & F & Ed0 & ->)].
    + destruct (writable w devicesFile); [|done].
      injection Es as <-. simpl in Hr'. rewrite registry_of_written in Hr'.
      injection Hr' as <-. apply Forall_app in Hl' as [Hl _].
      rewrite (devices_seen_registry room w l Hr Hl).
      rewrite List.filter_app. simpl. rewrite Hinfo, app_nil_r. done.
    + rewrite middle_lookup, middle_insert in Es.
      destruct (writable w devicesFile); [|done].
      injection Es as <-. simpl in Hr'. rewrite registry_of_written in Hr'.
      injection Hr' as <-.
      apply Forall_app in Hl' as [Hl1 Hl2]. apply Forall_cons in Hl2 as [_ Hl2].
      assert (Forall (λ d, d ≠ JNull) (l1 ++ d0 :: l2)) as Hl.
      { apply Forall_app. split; [done|]. constructor; [|done].
        by eapply same_uuid_nonnull. }
      rewrite (devices_seen_registry room w _ Hr Hl).
      rewrite !List.filter_app. simpl. rewrite Hmerged.
      intros Hin. apply List.in_app_or in Hin as [Hin|Hin];
        apply List.in_or_app; [by left|right].
      destruct (in_room room d0); [by right|done].
  - destruct (writable w devicesFile); [|done].
    injection Es as <-. simpl in Hr'. rewrite registry_of_written in Hr'.
    injection Hr' as <-. simpl. by rewrite Hinfo.
  - destruct (writable w devicesFile); [|done].
    injection Es as <-. simpl in Hr'. rewrite registry_of_written in Hr'.
    injection Hr' as <-. simpl. by rewrite Hinfo.
Qed.

End Further.

(** * Further scenarios *)

Section FurtherScenarios.
Import Scenario.
#[local] Existing Instance platform.

(** X2, at an instance: Scenario A. *)
Lemma authorized_only_by_record_witness :
  before_expiry = before_expiry
  ∧ ∃ pairings pairing expires_at,
      files before_expiry !! pairingsFile = Some (Json pairings)
      ∧ get (Some pairings) "10.0.20.5" = Normal (Some pairing)
      ∧ truthy (Some pairing) = true
      ∧ get (Some pairing) "expires_at" = Normal expires_at
      ∧ Date_lt (new_Date expires_at) (Some (clock before_expiry)) = false
      ∧ get (Some pairing) "room" = Normal (Some (JStr "101")).
Proof.
  apply (authorized_only_by_record (H := platform) "10.0.20.5" before_expiry
           (Some (JStr "101")) before_expiry).
  - vm_compute. reflexivity.
  - reflexivity.
Defined.

(** X3, at an instance: the record of the guest names no room. *)
Lemma record_without_room_is_not_paired_witness :
  (handleQuery cast_query guest roomless).2 = roomless
  ∧ (handleQuery_firewall cast_query guest roomless).2 = roomless.
Proof.
  apply (record_without_room_is_not_paired (H := platform) cast_query guest roomless
           {[ "10.0.20.5" :=
                JObj {[ "paired_at" := JStr "2025-12-08T10:00:00.000Z";
                        "expires_at" := JStr "2025-12-08T22:00:00.000Z" ]} ]}
           {[ "paired_at" := JStr "2025-12-08T10:00:00.000Z";
              "expires_at" := JStr "2025-12-08T22:00:00.000Z" ]}).
  - vm_compute. reflexivity.
  - vm_compute. reflexivity.
  - vm_compute. reflexivity.
Defined.

(** X4, at an instance: the second of three receivers of room 101 has no
    [uuid]. *)
Lemma broken_record_stops_the_answers_witness :
  (handleQuery cast_query guest broken_registry).1 = Throw
  ∧ Forall2 (λ d e, ∃ buf, buildResponse d = Normal buf
                           ∧ e = Send buf (port guest) (address guest))
      [tv] (emitted (handleQuery cast_query guest) broken_registry).
Proof.
  apply (broken_record_stops_the_answers (H := platform) cast_query
           (ptr_query "_googlecast._tcp.local") guest broken_registry
           (Some (JStr "101")) [tv; nameless; tv2] [tv] nameless [tv2]).
  - reflexivity.
  - reflexivity.
  - vm_compute. reflexivity.
  - reflexivity.
  - vm_compute. reflexivity.
  - repeat constructor; discriminate.
  - vm_compute. reflexivity.
  - repeat constructor; eexists; reflexivity.
  - reflexivity.
Defined.

(** X5, at an instance: a [null] between two receivers of room 101. *)
Lemma null_entry_hides_every_device_witness :
  getDevicesForRoom (Some (JStr "101")) null_entry = (Normal [], null_entry)
  ∧ (handleQuery cast_query guest null_entry).1 = Normal tt
  ∧ (handleQuery cast_query guest null_entry).2 = null_entry.
Proof.
  apply (null_entry_hides_every_device (H := platform) cast_query
           (ptr_query "_googlecast._tcp.local") guest null_entry
           (Some (JStr "101")) [tv; JNull; tv2]).
  - vm_compute. reflexivity.
  - right. left. reflexivity.
  - reflexivity.
Defined.

(** X9, at an instance: the registry file holds text that is not JSON. *)
Lemma lost_registry_is_started_anew_witness :
  saveDevice tv_rediscovered (discovery (Some (Text "not json")))
  = (Normal tt,
     set_files (<[devicesFile := Json (JArr [tv_rediscovered])]>
                  (files (discovery (Some (Text "not json")))))
       (discovery (Some (Text "not json")))).
Proof.
  apply (lost_registry_is_started_anew (H := platform) tv_rediscovered
           (discovery (Some (Text "not json")))).
  - right. exists "not json". vm_compute. reflexivity.
  - reflexivity.
Defined.

(** X10, at an instance: the registry knows another receiver only. *)
Lemma unknown_device_is_appended_witness :
  saveDevice tv_rediscovered (discovery (Some (Json (JArr [tv_102]))))
  = (Normal tt,
     set_files (<[devicesFile := Json (JArr ([tv_102] ++ [tv_rediscovered]))]>
                  (files (discovery (Some (Json (JArr [tv_102]))))))
       (discovery (Some (Json (JArr [tv_102]))))).
Proof.
  apply (unknown_device_is_appended (H := platform) tv_rediscovered
           (discovery (Some (Json (JArr [tv_102])))) [tv_102]).
  - vm_compute. reflexivity.
  - repeat constructor.
  - reflexivity.
Defined.

(** X11, at an instance: the receiver of Scenario A, assigned to room
    101 and described with a note, is discovered again. *)
Lemma known_device_is_merged_in_place_witness :
  saveDevice tv_rediscovered (discovery (Some (Json (JArr [tv_102; tv; tv2]))))
  = (Normal tt,
     set_files
       (<[devicesFile :=
            Json (JArr ([tv_102] ++ spread (Some tv) (Some tv_rediscovered) :: [tv2]))]>
          (files (discovery (Some (Json (JArr [tv_102; tv; tv2]))))))
       (discovery (Some (Json (JArr [tv_102; tv; tv2])))))
  ∧ (∀ k v, own_props (Some tv_rediscovered) !! k = Some v →
       get (Some (spread (Some tv) (Some tv_rediscovered))) k = Normal (Some v))
  ∧ (∀ k, own_props (Some tv_rediscovered) !! k = None →
       get (Some (spread (Some tv) (Some tv_rediscovered))) k
       = Normal (own_props (Some tv) !! k)).
Proof.
  apply (known_device_is_merged_in_place (H := platform) tv_rediscovered
           (discovery (Some (Json (JArr [tv_102; tv; tv2])))) [tv_102] tv [tv2]).
  - vm_compute. reflexivity.
  - repeat constructor.
  - reflexivity.
  - reflexivity.
Defined.

(** X13, at an instance: the same rediscovery. *)
Lemma save_keeps_uuid_a_key_witness :
  ∃ registry',
    registry_of (files (rediscovered (discovery (Some (Json (JArr [tv_102; tv; tv2]))))
                          [tv_102; tv_rediscovered; tv2]))
    = Some registry'
    ∧ keyed registry'
    ∧ In (Some "a1b2c3d4-e5f6-7890-abcd-ef1234567890") (List.map uuid_key registry')
    ∧ (length registry' = length [tv_102; tv; tv2]
       ∨ length registry' = S (length [tv_102; tv; tv2])).
Proof.
  apply (save_keeps_uuid_a_key (H := platform) tv_rediscovered_fields
           "a1b2c3d4-e5f6-7890-abcd-ef1234567890"
           (discovery (Some (Json (JArr [tv_102; tv; tv2]))))
           (rediscovered (discovery (Some (Json (JArr [tv_102; tv; tv2]))))
              [tv_102; tv_rediscovered; tv2])
           [tv_102; tv; tv2]).
  - vm_compute. reflexivity.
  - split.
    + repeat constructor; eexists; reflexivity.
    + vm_compute. repeat constructor; intros Hin;
        repeat (apply elem_of_cons in Hin as [Hin|Hin]; [discriminate Hin|]);
        by apply elem_of_nil in Hin.
  - reflexivity.
  - vm_compute. reflexivity.
Defined.

(** X14, at an instance: the same rediscovery, twice. *)
Lemma save_is_idempotent_witness :
  saveDevice (JObj tv_rediscovered_fields)
    (rediscovered (discovery (Some (Json (JArr [tv_102; tv; tv2]))))
       [tv_102; tv_rediscovered; tv2])
  = (Normal tt,
     rediscovered (discovery (Some (Json (JArr [tv_102; tv; tv2]))))
       [tv_102; tv_rediscovered; tv2]).
Proof.
  apply (save_is_idempotent (H := platform) tv_rediscovered_fields
           "a1b2c3d4-e5f6-7890-abcd-ef1234567890"
           (discovery (Some (Json (JArr [tv_102; tv; tv2]))))).
  - reflexivity.
  - vm_compute. reflexivity.
Defined.

(** X16, at an instance: the receiver of Scenario A answers at
    10.0.30.9. *)
Lemma fetched_record_has_no_room_witness :
  discovery None = discovery None
  ∧ (∃ desc, http (discovery None) !! "10.0.30.9" = Some desc
             ∧ get (Some tv_rediscovered) "uuid"
               = Normal (Some (JStr (remove_first "uuid:" (UDN desc))))
             ∧ ∀ u, UDN desc = "uuid:" +:+ u → uuid_key tv_rediscovered = Some u)
  ∧ get (Some tv_rediscovered) "ip" = Normal (Some (JStr "10.0.30.9"))
  ∧ get (Some tv_rediscovered) "room" = Normal null
  ∧ ∀ room, truthy room = true → in_room room tv_rediscovered = false.
Proof.
  apply (fetched_record_has_no_room (H := platform) "10.0.30.9" (discovery None)
           tv_rediscovered (discovery None)).
  vm_compute. reflexivity.
Defined.

(** X17, at an instance: after the rediscovery of the receiver of
    Scenario A, the other receiver of room 101 is the only one seen, and
    it was seen before. *)
Lemma discovery_never_reveals_a_device_witness :
  devices_seen (Some (JStr "101"))
    (on_up ["10.0.30.9"] (discovery (Some (Json (JArr [tv_102; tv; tv2]))))).2
  = [tv2]
  ∧ In tv2 (devices_seen (Some (JStr "101"))
              (discovery (Some (Json (JArr [tv_102; tv; tv2]))))).
Proof.
  assert (devices_seen (Some (JStr "101"))
            (on_up ["10.0.30.9"] (discovery (Some (Json (JArr [tv_102; tv; tv2]))))).2
          = [tv2]) as E by (vm_compute; reflexivity).
  split; [exact E|].
  apply (discovery_never_reveals_a_device (H := platform) ["10.0.30.9"]
           (Some (JStr "101")) (discovery (Some (Json (JArr [tv_102; tv; tv2]))))).
  - reflexivity.
  - rewrite E. by left.
Defined.

End FurtherScenarios.

(** * The pairing API *)

Section ServerProperties.
Context `{Platform} `{Deployment}.

Lemma TimeClip_valid t : valid_time t → TimeClip t = Some t.
Proof.
  unfold valid_time, TimeClip. intros Ht.
  by apply Z.leb_le in Ht as ->.
Qed.

Lemma pairing_record_expires_at room token now :
  get (Some (pairing_record room token now)) "expires_at"
  = Normal (Some (JStr (toISOString (now + 43200000)))).
Proof.
  unfold pairing_record. rewrite get_obj. unfold with_field.
  destruct room, token; by simplify_map_eq.
Qed.

Lemma pairing_record_room room token now :
  get (Some (pairing_record room token now)) "room" = Normal room.
Proof.
  unfold pairing_record. rewrite get_obj. unfold with_field.
  destruct room, token; by simplify_map_eq.
Qed.

(** [GET /pair] with a token that the store knows and that has not
    expired. *)
Lemma pair_accepts_found req w a tokens tokenData e room pairings :
  guest_address req = Normal a →
  files w !! tokensFile = Some (Json tokens) →
  lookup tokens (ToString (query_token req)) = Normal tokenData →
  truthy_found tokenData = true →
  field_of tokenData "expires_at" = Normal e →
  Date_lt (new_Date e) (Some (clock w)) = false →
  field_of tokenData "room" = Normal room →
  pairings_of (files w) = JObj pairings →
  a ≠ "__proto__" →
  writable w server_pairingsFile = true →
  valid_time (clock w + 43200000) →
  pair req w
  = (Normal (reply 200 (Page room)),
     set_files
       (<[server_pairingsFile :=
            Json (JObj (<[a := pairing_record room (query_token req) (clock w)]>
                          pairings))]> (files w)) w).
Proof.
  intros Ha Ht Hk Htr Hf He Hr Hp Hproto Hw Hv.
  unfold pair. rewrite Ha.
  erewrite bind_normal; [|by run].
  erewrite bind_normal; [|run; by rewrite Ht].
  simpl. rewrite Hk.
  erewrite bind_normal; [|by run]. rewrite Htr. simpl. rewrite Hf.
  erewrite bind_normal; [|by run].
  erewrite bind_normal; [|by run].
  rewrite He.
  erewrite bind_normal.
  2:{ unfold pairings_of in Hp. run.
      destruct (files w !! server_pairingsFile) as [[j|raw]|]; simpl;
        by rewrite ?Hp. }
  rewrite Hr.
  erewrite bind_normal; [|by run].
  erewrite bind_normal; [|by run].
  erewrite bind_normal; [|by run].
  erewrite bind_normal; [|by run].
  change (12 * 60 * 60 * 1000)%Z with 43200000%Z.
  rewrite (TimeClip_valid _ Hv).
  erewrite bind_normal; [|by run].
  assert (String.eqb a "__proto__" = false) as Ep by (by apply String.eqb_neq).
  unfold assign. rewrite Ep. simpl.
  erewrite bind_normal; [|by run].
  erewrite bind_normal; [|by apply writeFile_done].
  erewrite bind_normal; [|by run].
  erewrite bind_normal.
  2:{ unfold lift. simpl.
      change (JObj (with_field "room" room
                      (with_field "token_used" (query_token req)
                         {[ "paired_at" := JStr (toISOString (clock w));
                            "expires_at" := JStr (toISOString (clock w + 43200000)) ]})))
        with (pairing_record room (query_token req) (clock w)).
      by rewrite pairing_record_expires_at. }
  done.
Qed.

Lemma pair_accepts req w a tokens fields pairings :
  guest_address req = Normal a →
  files w !! tokensFile = Some (Json (JObj tokens)) →
  tokens !! ToString (query_token req) = Some (JObj fields) →
  Date_lt (new_Date (fields !! "expires_at")) (Some (clock w)) = false →
  pairings_of (files w) = JObj pairings →
  a ≠ "__proto__" →
  writable w server_pairingsFile = true →
  valid_time (clock w + 43200000) →
  pair req w
  = (Normal (reply 200 (Page (fields !! "room"))),
     set_files
       (<[server_pairingsFile :=
            Json (JObj (<[a := pairing_record (fields !! "room") (query_token req)
                                (clock w)]> pairings))]> (files w)) w).
Proof.
  intros Ha Ht Hk He Hp Hproto Hw Hv.
  apply (pair_accepts_found req w a (JObj tokens) (Own (JObj fields))
           (fields !! "expires_at")); try done.
  unfold lookup. by rewrite get_obj, Hk.
Qed.

Lemma paired_guest_resolves (w : world Buffer) a room token now pairings t :
  files w !! pairingsFile
  = Some (Json (JObj (<[a := pairing_record room token now]> pairings))) →
  Date_parse (toISOString (now + 43200000)) = Some (now + 43200000)%Z →
  getRoomForGuest a (at_time t w)
  = (Normal (if (now + 43200000 <? t)%Z then null else room), at_time t w).
Proof.
  intros Ef Hd.
  rewrite (getRoomForGuest_record a (at_time t w)
             (<[a := pairing_record room token now]> pairings)
             (pairing_record room token now)
             (Some (JStr (toISOString (now + 43200000)))) room).
  - unfold new_Date. rewrite Hd. done.
  - done.
  - by rewrite lookup_insert_eq.
  - done.
  - apply pairing_record_expires_at.
  - apply pairing_record_room.
Qed.

Lemma others_resolve_alike (w w' : world Buffer) a b record pairings :
  b ≠ a →
  clock w' = clock w →
  (files w !! pairingsFile = Some (Json (JObj pairings))
   ∨ (pairings = ∅
      ∧ (files w !! pairingsFile = None
         ∨ ∃ raw, files w !! pairingsFile = Some (Text raw)))) →
  files w' !! pairingsFile = Some (Json (JObj (<[a := record]> pairings))) →
  (getRoomForGuest b w').1 = (getRoomForGuest b w).1.
Proof.
  intros Hb Hc Hbefore Hafter.
  unfold getRoomForGuest. run. rewrite Hafter. simpl.
  rewrite lookup_insert_ne by done.
  destruct Hbefore as [->|[-> [->|[raw ->]]]]; simpl; try done.
  destruct (truthy (pairings !! b)); simpl; [|done].
  destruct (get (pairings !! b) "expires_at") as [e|]; simpl; [|done].
  rewrite Hc.
  destruct (Date_lt (new_Date e) (Some (clock w))); simpl; [done|].
  by destruct (get (pairings !! b) "room").
Qed.

Lemma pairings_of_cases (fs : gmap string file) pairings :
  pairings_of fs = JObj pairings →
  fs !! server_pairingsFile = Some (Json (JObj pairings))
  ∨ (pairings = ∅
     ∧ (fs !! server_pairingsFile = None
        ∨ ∃ raw, fs !! server_pairingsFile = Some (Text raw))).
Proof.
  unfold pairings_of.
  destruct (fs !! server_pairingsFile) as [[j|raw]|].
  - intros ->. by left.
  - intros [= <-]. right. split; [done|]. right. by exists raw.
  - intros [= <-]. right. split; [done|]. by left.
Qed.

(** X18: pairing authorizes the guest for twelve hours. When the server
    and the responder use the same pairings file, a [GET /pair] with a
    token of the store that has not expired answers 200 and files a record
    under the guest's address; from then on the resolver of the responder
    returns the room of the token for that address until twelve hours
    after the pairing, and "unauthorized" afterwards; for every other
    address its answer is what it was. *)
Theorem pairing_authorizes_the_guest req w a tokens fields pairings :
  server_pairingsFile = pairingsFile →
  guest_address req = Normal a →
  files w !! tokensFile = Some (Json (JObj tokens)) →
  tokens !! ToString (query_token req) = Some (JObj fields) →
  Date_lt (new_Date (fields !! "expires_at")) (Some (clock w)) = false →
  pairings_of (files w) = JObj pairings →
  a ≠ "__proto__" →
  writable w server_pairingsFile = true →
  valid_time (clock w + 43200000) →
  Date_parse (toISOString (clock w + 43200000)) = Some (clock w + 43200000)%Z →
  (pair req w).1 = Normal (reply 200 (Page (fields !! "room")))
  ∧ (∀ t, (t <= clock w + 43200000)%Z →
       getRoomForGuest a (at_time t (pair req w).2)
       = (Normal (fields !! "room"), at_time t (pair req w).2))
  ∧ (∀ t, (clock w + 43200000 < t)%Z →
       getRoomForGuest a (at_time t (pair req w).2)
       = (Normal null, at_time t (pair req w).2))
  ∧ (∀ b, b ≠ a →
       (getRoomForGuest b (pair req w).2).1 = (getRoomForGuest b w).1).
Proof.
  intros Hsame Ha Ht Hk He Hp Hproto Hw Hv Hd.
  rewrite (pair_accepts req w a tokens fields pairings) by done. simpl.
  set (w' := set_files _ w).
  assert (files w' !! pairingsFile
          = Some (Json (JObj (<[a := pairing_record (fields !! "room")
                                        (query_token req) (clock w)]> pairings))))
    as Ef.
  { unfold w'. simpl. rewrite <- Hsame. by rewrite lookup_insert_eq. }
  split; [done|]. split; [|split].
  - intros t Hle. rewrite (paired_guest_resolves w' a _ _ _ _ t Ef Hd).
    by apply Z.ltb_ge in Hle as ->.
  - intros t Hlt. rewrite (paired_guest_resolves w' a _ _ _ _ t Ef Hd).
    by apply Z.ltb_lt in Hlt as ->.
  - intros b Hb. eapply others_resolve_alike; [exact Hb|done| |exact Ef].
    rewrite <- Hsame. by apply pairings_of_cases.
Qed.

Lemma pair_outcomes req w :
  (∃ c, pair req w = (c, w)
        ∧ ∀ resp, c = Normal resp → res_status resp = 400%Z ∨ res_status resp = 500%Z)
  ∨ (∃ c a room pairings',
       pair req w
       = (c, set_files (<[server_pairingsFile := Json pairings']> (files w)) w)
       ∧ guest_address req = Normal a
       ∧ writable w server_pairingsFile = true
       ∧ assign (pairings_of (files w)) a
           (pairing_record room (query_token req) (clock w)) = Normal pairings'
       ∧ ∀ resp, c = Normal resp → resp = reply 200 (Page room)).
Proof.
  set (stops := λ (r : completion response * world Buffer),
         ∃ c, r = (c, w)
              ∧ ∀ resp, c = Normal resp →
                  res_status resp = 400%Z ∨ res_status resp = 500%Z).
  assert (∀ (m : M response) Q, stops (m w) →
            (∃ c, m w = (c, w)
                  ∧ ∀ resp, c = Normal resp →
                      res_status resp = 400%Z ∨ res_status resp = 500%Z)
            ∨ Q)
    as Hstop by (intros m Q Hm; by left).
  assert (∀ B (c : completion B) (k : B → M response),
            c = Throw → stops ((x ← lift c; k x) w)) as Hthrow.
  { intros B c k ->. exists Throw. split; [by run|by intros resp [=]]. }
  assert (∀ code text, code = 400%Z ∨ code = 500%Z →
            stops ((mret (reply code (Plain text)) : M response) w)) as Hreply.
  { intros code text Hc. eexists. split; [by run|]. by intros resp [= <-]. }
  unfold pair.
  destruct (guest_address req) as [a|] eqn:Ha; [|by apply Hstop, Hthrow].
  erewrite bind_normal; [|by run].
  destruct (files w !! tokensFile) as [[tokens|raw]|] eqn:Ht.
  2,3: erewrite bind_normal with (a := None) (w' := w); [|run; by rewrite Ht];
       apply Hstop, Hreply; by right.
  erewrite bind_normal with (a := Some tokens) (w' := w); [|run; by rewrite Ht].
  simpl.
  destruct (lookup tokens (ToString (query_token req))) as [tokenData|] eqn:Hk;
    [|by apply Hstop, Hthrow].
  erewrite bind_normal; [|by run].
  destruct (truthy_found tokenData); simpl; [|apply Hstop, Hreply; by left].
  destruct (field_of tokenData "expires_at") as [e|] eqn:He;
    [|by apply Hstop, Hthrow].
  erewrite bind_normal; [|by run].
  erewrite bind_normal; [|by run].
  destruct (Date_lt (new_Date e) (Some (clock w)));
    [apply Hstop, Hreply; by left|].
  erewrite bind_normal with (a := pairings_of (files w)) (w' := w).
  2:{ unfold pairings_of. run.
      by destruct (files w !! server_pairingsFile) as [[j|raw]|]. }
  destruct (field_of tokenData "room") as [room|] eqn:Hr;
    [|by apply Hstop, Hthrow].
  erewrite bind_normal; [|by run].
  erewrite bind_normal; [|by run].
  erewrite bind_normal; [|by run].
  erewrite bind_normal; [|by run].
  change (12 * 60 * 60 * 1000)%Z with 43200000%Z.
  destruct (TimeClip (clock w + 43200000)) as [expiry|] eqn:Hc;
    [|by apply Hstop, Hthrow].
  assert (expiry = (clock w + 43200000)%Z) as ->.
  { unfold TimeClip in Hc. by destruct (_ <=? _)%Z; simplify_eq. }
  erewrite bind_normal; [|by run].
  change (JObj (with_field "room" room
                  (with_field "token_used" (query_token req)
                     {[ "paired_at" := JStr (toISOString (clock w));
                        "expires_at" := JStr (toISOString (clock w + 43200000)) ]})))
    with (pairing_record room (query_token req) (clock w)).
  destruct (assign (pairings_of (files w)) a
              (pairing_record room (query_token req) (clock w)))
    as [pairings'|] eqn:Hs; [|by apply Hstop, Hthrow].
  erewrite bind_normal; [|by run].
  destruct (writable w server_pairingsFile) eqn:Hw.
  - erewrite bind_normal; [|by apply writeFile_done].
    right. unfold JSON_stringify. run.
    repeat case_match; eexists _, a, room, pairings';
      (split; [reflexivity|]); repeat (split; [done|]);
      first [by intros resp [=] | by intros resp [= <-]].
  - apply Hstop. exists Throw. split; [|by intros resp [=]].
    erewrite bind_throw; [done|]. unfold writeFile. by rewrite Hw.
Qed.

Lemma pair_refuses_unknown req w a tokens tokenData :
  guest_address req = Normal a →
  files w !! tokensFile = Some (Json tokens) →
  lookup tokens (ToString (query_token req)) = Normal tokenData →
  truthy_found tokenData = false →
  pair req w = (Normal (reply 400 (Plain "❌ Invalid pairing code")), w).
Proof.
  intros Ha Ht Hk Htr. unfold pair. rewrite Ha.
  erewrite bind_normal; [|by run].
  erewrite bind_normal; [|run; by rewrite Ht].
  simpl. rewrite Hk.
  erewrite bind_normal; [|by run]. by rewrite Htr.
Qed.

Lemma pair_refuses_expired req w a tokens tokenData e :
  guest_address req = Normal a →
  files w !! tokensFile = Some (Json tokens) →
  lookup tokens (ToString (query_token req)) = Normal tokenData →
  truthy_found tokenData = true →
  field_of tokenData "expires_at" = Normal e →
  Date_lt (new_Date e) (Some (clock w)) = true →
  pair req w
  = (Normal (reply 400
               (Plain "❌ Pairing code expired. Please scan a new QR code.")), w).
Proof.
  intros Ha Ht Hk Htr Hf He. unfold pair. rewrite Ha.
  erewrite bind_normal; [|by run].
  erewrite bind_normal; [|run; by rewrite Ht].
  simpl. rewrite Hk.
  erewrite bind_normal; [|by run]. rewrite Htr. simpl. rewrite Hf.
  erewrite bind_normal; [|by run].
  erewrite bind_normal; [|by run].
  by rewrite He.
Qed.

Lemma pairing_token_files room token w tokens :
  tokens_of (files w) = JObj tokens →
  token ≠ "__proto__" →
  writable w tokensFile = true →
  valid_time (clock w + 900000) →
  let w' := set_files
              (<[tokensFile :=
                   Json (JObj (<[token := token_entry room (clock w)]> tokens))]>
                 (files w)) w in
  let url := "http://192.168.20.1:3000/pair?token=" +:+ token in
  pairing_token room token w
  = (match QRCode_toDataURL url with
     | Normal img =>
         Normal (reply 200
                   (JsonBody
                      (JObj (<["expires_at" := JStr (toISOString (clock w + 900000))]>
                               {[ "room" := JStr room;
                                  "pairing_url" := JStr url;
                                  "qr_image" := JStr img ]}))))
     | Throw => Throw
     end, w').
Proof.
  intros Hp Hproto Hw Hv w' url.
  unfold pairing_token.
  erewrite bind_normal.
  2:{ unfold tokens_of in Hp. run.
      destruct (files w !! tokensFile) as [[j|raw]|]; simpl; by rewrite ?Hp. }
  erewrite bind_normal; [|by run].
  erewrite bind_normal; [|by run].
  erewrite bind_normal; [|by run].
  change (15 * 60 * 1000)%Z with 900000%Z.
  rewrite (TimeClip_valid _ Hv).
  erewrite bind_normal; [|by run].
  assert (String.eqb token "__proto__" = false) as Ep by (by apply String.eqb_neq).
  unfold assign. rewrite Ep. simpl.
  erewrite bind_normal; [|by run].
  erewrite bind_normal; [|by apply writeFile_done].
  fold url. fold w'.
  destruct (QRCode_toDataURL url) as [img|] eqn:Eq.
  - erewrite bind_normal; [|by run].
    erewrite bind_normal; [|by run].
    erewrite bind_normal.
    2:{ unfold lift. simpl. rewrite get_obj. by simplify_map_eq. }
    done.
  - erewrite bind_throw; [done|]. by run.
Qed.


(** X20: [GET /pair] touches nothing but the pairings file: whatever the
    request and the state of the stores, and whether the handler answers or
    throws, every other file (the token store among them, when it is
    another file: a token is not used up) is left as it was, the clock is
    not moved and nothing is sent or executed. *)
Theorem pair_touches_only_the_pairings_file req w f :
  f ≠ server_pairingsFile →
  files (pair req w).2 !! f = files w !! f
  ∧ clock (pair req w).2 = clock w
  ∧ trace (pair req w).2 = trace w.
Proof.
  intros Hf.
  destruct (pair_outcomes req w) as [(c & Ep & _)|(c & a & r & j & Ep & _)];
    rewrite Ep; simpl; [done|].
  by rewrite lookup_insert_ne.
Qed.

(** X21: a token pairs more than one guest. After a first guest has been
    paired with a token, a second guest who presents the same token at a
    time [t] at which it has not expired is paired to the same room, and
    the pairings file then holds the records of both. *)
Theorem token_pairs_a_second_guest req1 req2 w a1 a2 tokens fields pairings t :
  tokensFile ≠ server_pairingsFile →
  guest_address req1 = Normal a1 →
  guest_address req2 = Normal a2 →
  query_token req2 = query_token req1 →
  files w !! tokensFile = Some (Json (JObj tokens)) →
  tokens !! ToString (query_token req1) = Some (JObj fields) →
  Date_lt (new_Date (fields !! "expires_at")) (Some (clock w)) = false →
  Date_lt (new_Date (fields !! "expires_at")) (Some t) = false →
  pairings_of (files w) = JObj pairings →
  a1 ≠ "__proto__" →
  a2 ≠ "__proto__" →
  writable w server_pairingsFile = true →
  valid_time (clock w + 43200000) →
  valid_time (t + 43200000) →
  (pair req1 w).1 = Normal (reply 200 (Page (fields !! "room")))
  ∧ (pair req2 (at_time t (pair req1 w).2)).1
    = Normal (reply 200 (Page (fields !! "room")))
  ∧ files (pair req2 (at_time t (pair req1 w).2)).2 !! server_pairingsFile
    = Some (Json (JObj
        (<[a2 := pairing_record (fields !! "room") (query_token req1) t]>
           (<[a1 := pairing_record (fields !! "room") (query_token req1) (clock w)]>
              pairings)))).
Proof.
  intros Hne Ha1 Ha2 Hq Ht Hk He1 He2 Hp Hp1 Hp2 Hw Hv1 Hv2.
  rewrite (pair_accepts req1 w a1 tokens fields pairings) by done. simpl.
  split; [done|].
  set (w1 := at_time t _).
  rewrite (pair_accepts req2 w1 a2 tokens fields
             (<[a1 := pairing_record (fields !! "room") (query_token req1) (clock w)]>
                pairings)); try done.
  - simpl. split; [done|]. by rewrite lookup_insert_eq, Hq.
  - unfold w1. simpl. by rewrite lookup_insert_ne.
  - by rewrite Hq.
  - unfold w1, pairings_of. simpl. by rewrite lookup_insert_eq.
Qed.

(** X22: a token the store does not hold is refused. When the token store
    is an object with no property of the name of the token, neither its own
    nor inherited from its prototype, [GET /pair] answers 400 "Invalid
    pairing code" and changes nothing. *)
Theorem unknown_token_is_refused req w a tokens :
  guest_address req = Normal a →
  files w !! tokensFile = Some (Json (JObj tokens)) →
  tokens !! ToString (query_token req) = None →
  inherited (JObj tokens) (ToString (query_token req)) = false →
  pair req w = (Normal (reply 400 (Plain "❌ Invalid pairing code")), w).
Proof.
  intros Ha Ht Hk Hi.
  apply (pair_refuses_unknown req w a (JObj tokens) Missing); try done.
  unfold lookup. by rewrite get_obj, Hk, Hi.
Qed.

Lemma expired_refusal req w a tokens fields s e :
  guest_address req = Normal a →
  files w !! tokensFile = Some (Json (JObj tokens)) →
  tokens !! ToString (query_token req) = Some (JObj fields) →
  fields !! "expires_at" = Some (JStr s) →
  Date_parse s = Some e →
  (e < clock w)%Z →
  pair req w
  = (Normal (reply 400
               (Plain "❌ Pairing code expired. Please scan a new QR code.")), w).
Proof.
  intros Ha Ht Hk Hf Hd Hlt.
  apply (pair_refuses_expired req w a (JObj tokens) (Own (JObj fields))
           (Some (JStr s))); try done.
  - unfold lookup. by rewrite get_obj, Hk.
  - simpl. by rewrite get_obj, Hf.
  - unfold new_Date, Date_lt. rewrite Hd. by apply Z.ltb_lt.
Qed.

(** X23: a token is refused once its expiry instant has passed. For an
    entry of the token store whose [expires_at] parses to the instant [e],
    a request at a time after [e] is answered 400 "Pairing code expired"
    and changes nothing, whatever the room of the entry. *)
Theorem expired_token_is_refused req w a tokens fields s e :
  guest_address req = Normal a →
  files w !! tokensFile = Some (Json (JObj tokens)) →
  tokens !! ToString (query_token req) = Some (JObj fields) →
  fields !! "expires_at" = Some (JStr s) →
  Date_parse s = Some e →
  (e < clock w)%Z →
  pair req w
  = (Normal (reply 400
               (Plain "❌ Pairing code expired. Please scan a new QR code.")), w).
Proof. apply expired_refusal. Qed.

(** X24: without a token store nobody is paired. When the token file is
    missing or does not hold JSON, [GET /pair] answers 500 "Server error"
    for every token and changes nothing. *)
Theorem unreadable_token_store_is_a_server_error req w a :
  guest_address req = Normal a →
  (files w !! tokensFile = None ∨ ∃ raw, files w !! tokensFile = Some (Text raw)) →
  pair req w = (Normal (reply 500 (Plain "Server error")), w).
Proof.
  intros Ha Hf. unfold pair. rewrite Ha.
  erewrite bind_normal; [|by run].
  erewrite bind_normal with (a := None) (w' := w); [done|].
  run. by destruct Hf as [->|[raw ->]].
Qed.

(** X25: the name of an inherited member passes for a token, yet
    authorizes nobody. When the token is not a property of the token store
    itself but names a member its prototype supplies, [GET /pair] finds it
    neither invalid nor expired, answers 200 with an undefined room and
    files a record without a room; the resolver of the responder then
    returns no room for that guest at any time. *)
Theorem inherited_name_passes_as_token req w a tokens pairings :
  server_pairingsFile = pairingsFile →
  guest_address req = Normal a →
  files w !! tokensFile = Some (Json (JObj tokens)) →
  tokens !! ToString (query_token req) = None →
  inherited (JObj tokens) (ToString (query_token req)) = true →
  pairings_of (files w) = JObj pairings →
  a ≠ "__proto__" →
  writable w server_pairingsFile = true →
  valid_time (clock w + 43200000) →
  (pair req w).1 = Normal (reply 200 (Page None))
  ∧ files (pair req w).2 !! server_pairingsFile
    = Some (Json (JObj (<[a := pairing_record None (query_token req) (clock w)]>
                          pairings)))
  ∧ get (Some (pairing_record None (query_token req) (clock w))) "room"
    = Normal None
  ∧ ∀ t, ∃ room, getRoomForGuest a (at_time t (pair req w).2)
                 = (Normal room, at_time t (pair req w).2)
                 ∧ truthy room = false.
Proof.
  intros Hsame Ha Ht Hk Hi Hp Hproto Hw Hv.
  rewrite (pair_accepts_found req w a (JObj tokens) Inherited None None pairings);
    try done.
  2:{ unfold lookup. by rewrite get_obj, Hk, Hi. }
  simpl. split; [done|]. split; [by rewrite lookup_insert_eq|].
  split; [apply pairing_record_room|].
  intros t.
  set (w' := at_time t _).
  eexists. split.
  - apply (getRoomForGuest_record a w'
             (<[a := pairing_record None (query_token req) (clock w)]> pairings)
             (pairing_record None (query_token req) (clock w))
             (Some (JStr (toISOString (clock w + 43200000)))) None).
    + unfold w'. simpl. rewrite <- Hsame. by rewrite lookup_insert_eq.
    + by rewrite lookup_insert_eq.
    + done.
    + apply pairing_record_expires_at.
    + apply pairing_record_room.
  - by destruct (Date_lt _ _).
Qed.

(** X26: the forwarding header, when present, names the guest. For a
    request with a non-empty [X-Forwarded-For] header the outcome of
    [GET /pair] does not depend on the address of the connection: the
    response and the stores are those of the same request from any other
    connection. *)
Theorem forwarded_header_names_the_guest req h r w :
  x_forwarded_for req = Some h →
  h ≠ "" →
  pair req w
  = pair {| query_token := query_token req;
            x_forwarded_for := Some h;
            remoteAddress := r |} w.
Proof.
  intros Hh Hne.
  assert (guest_address req
          = guest_address {| query_token := query_token req;
                             x_forwarded_for := Some h;
                             remoteAddress := r |}) as E.
  { unfold guest_address. simpl. rewrite Hh.
    apply String.eqb_neq in Hne. by rewrite Hne. }
  unfold pair. simpl. by rewrite E.
Qed.

(** X27: an IPv4-mapped address is filed as the IPv4 address. Without a
    forwarding header, a connection from [::ffff:ip] is treated as the
    guest [ip], the form under which the responder looks a guest up. *)
Theorem mapped_address_is_unwrapped req ip :
  x_forwarded_for req = None →
  remoteAddress req = Some ("::ffff:" +:+ ip) →
  guest_address req = Normal ip.
Proof.
  intros Hh Hr. unfold guest_address. rewrite Hh, Hr. simpl.
  change ("" +:+ ip) with ip. rewrite Nat.sub_0_r, substring_all.
  by destruct ip.
Qed.

(** X28: the token endpoint files the new token and keeps the others.
    Starting from a token store that is an object (or from nothing, when
    the file is missing or does not hold JSON), the endpoint writes the
    store with the entry of the new token, whose room is the room of the
    request and whose expiry is fifteen minutes ahead, and with every other
    entry as it was; the store is written even when the rendering of the
    code fails afterwards. *)
Theorem issuing_files_the_token room token w tokens :
  tokens_of (files w) = JObj tokens →
  token ≠ "__proto__" →
  writable w tokensFile = true →
  valid_time (clock w + 900000) →
  ∃ tokens',
    files (pairing_token room token w).2 !! tokensFile = Some (Json (JObj tokens'))
    ∧ get (tokens' !! token) "room" = Normal (Some (JStr room))
    ∧ get (tokens' !! token) "expires_at"
      = Normal (Some (JStr (toISOString (clock w + 900000))))
    ∧ ∀ other, other ≠ token → tokens' !! other = tokens !! other.
Proof.
  intros Hp Hproto Hw Hv.
  rewrite (pairing_token_files room token w tokens) by done. simpl.
  exists (<[token := token_entry room (clock w)]> tokens).
  rewrite !lookup_insert_eq. split; [done|].
  unfold token_entry. rewrite !get_obj.
  split; [by simplify_map_eq|]. split; [by simplify_map_eq|].
  intros other Ho. by rewrite lookup_insert_ne.
Qed.

(** X29: an issued token pairs for fifteen minutes. After the token
    endpoint has issued [token] for [room] at time [now], a guest who
    presents it at a time [t] is paired to [room] when [t] is at most
    fifteen minutes after [now], and is refused with 400 "Pairing code
    expired" when [t] is later. *)
Theorem issued_token_pairs_for_fifteen_minutes room token req w a tokens pairings :
  tokensFile ≠ server_pairingsFile →
  tokens_of (files w) = JObj tokens →
  token ≠ "__proto__" →
  writable w tokensFile = true →
  valid_time (clock w + 900000) →
  Date_parse (toISOString (clock w + 900000)) = Some (clock w + 900000)%Z →
  query_token req = Some (JStr token) →
  guest_address req = Normal a →
  a ≠ "__proto__" →
  pairings_of (files w) = JObj pairings →
  writable w server_pairingsFile = true →
  (∀ t, (t <= clock w + 900000)%Z → valid_time (t + 43200000) →
     (pair req (at_time t (pairing_token room token w).2)).1
     = Normal (reply 200 (Page (Some (JStr room)))))
  ∧ (∀ t, (clock w + 900000 < t)%Z →
       pair req (at_time t (pairing_token room token w).2)
       = (Normal (reply 400
                    (Plain "❌ Pairing code expired. Please scan a new QR code.")),
          at_time t (pairing_token room token w).2)).
Proof.
  intros Hne Hp Hproto Hw Hv Hd Hq Ha Hpa Hps Hws.
  rewrite (pairing_token_files room token w tokens) by done. simpl.
  set (w1 := set_files _ w).
  assert (∀ t, files (at_time t w1) !! tokensFile
               = Some (Json (JObj (<[token := token_entry room (clock w)]> tokens))))
    as Ef by (intros t; simpl; by rewrite lookup_insert_eq).
  assert (ToString (query_token req) = token) as Ek by (by rewrite Hq).
  split.
  - intros t Hle Hvt.
    rewrite (pair_accepts req (at_time t w1) a
               (<[token := token_entry room (clock w)]> tokens)
               {[ "room" := JStr room;
                  "created_at" := JStr (toISOString (clock w));
                  "expires_at" := JStr (toISOString (clock w + 900000)) ]}
               pairings); try done.
    + rewrite Ek. by rewrite lookup_insert_eq.
    + simplify_map_eq. unfold new_Date, Date_lt. rewrite Hd.
      by apply Z.ltb_ge.
    + unfold pairings_of in *. simpl. by rewrite lookup_insert_ne.
  - intros t Hlt.
    apply (expired_refusal req (at_time t w1) a
             (<[token := token_entry room (clock w)]> tokens)
             {[ "room" := JStr room;
                "created_at" := JStr (toISOString (clock w));
                "expires_at" := JStr (toISOString (clock w + 900000)) ]}
             (toISOString (clock w + 900000)) (clock w + 900000)); try done.
    rewrite Ek. by rewrite lookup_insert_eq.
Qed.

(** X30: a paired guest is answered. When the server and the responder
    use the same pairings file, and the registry file holds an array
    without [null] entries in which every record of the room can be
    answered (it has a string [uuid] and [dns.encode] accepts the message
    built from it), a guest paired by [GET /pair] to a room with a truthy
    name who sends a relevant query at a time [t] within twelve hours
    receives, in order, one response per device of that room in the
    registry, each sent to the address and port of the query. *)
Theorem paired_guest_is_answered req w a tokens fields pairings msg p ri registry t :
  server_pairingsFile = pairingsFile →
  guest_address req = Normal a →
  files w !! tokensFile = Some (Json (JObj tokens)) →
  tokens !! ToString (query_token req) = Some (JObj fields) →
  Date_lt (new_Date (fields !! "expires_at")) (Some (clock w)) = false →
  pairings_of (files w) = JObj pairings →
  a ≠ "__proto__" →
  writable w server_pairingsFile = true →
  valid_time (clock w + 43200000) →
  Date_parse (toISOString (clock w + 43200000)) = Some (clock w + 43200000)%Z →
  truthy (fields !! "room") = true →
  dns_decode msg = Some p →
  isGoogleCast p = true →
  address ri = a →
  (t <= clock w + 43200000)%Z →
  files w !! devicesFile = Some (Json (JArr registry)) →
  Forall (λ d, d ≠ JNull) registry →
  Forall answerable (List.filter (in_room (fields !! "room")) registry) →
  Forall2 (λ d e, ∃ buf, buildResponse d = Normal buf
                         ∧ e = Send buf (port ri) (address ri))
    (List.filter (in_room (fields !! "room")) registry)
    (emitted (handleQuery msg ri) (at_time t (pair req w).2)).
Proof.
  intros Hsame Ha Ht Hk He Hp Hproto Hw Hv Hd Hroom Ep Hq Hri Hle Hdev Hnn Hans.
  rewrite (pair_accepts req w a tokens fields pairings) by done. simpl.
  set (w' := set_files _ w).
  assert (files w' !! pairingsFile
          = Some (Json (JObj (<[a := pairing_record (fields !! "room")
                                        (query_token req) (clock w)]> pairings))))
    as Ef.
  { unfold w'. simpl. rewrite <- Hsame. by rewrite lookup_insert_eq. }
  destruct (handleQuery_authorized msg p ri (at_time t w') (fields !! "room") registry)
    as (evs & Eh & F); try done.
  - rewrite Hri. rewrite (paired_guest_resolves w' a _ _ _ _ t Ef Hd).
    by apply Z.ltb_ge in Hle as ->.
  - unfold w'. simpl. rewrite Hsame. rewrite lookup_insert_ne; [done|].
    apply String.eqb_neq. reflexivity.
  - by rewrite (emitted_add_events _ (at_time t w') evs) by (by rewrite Eh).
Qed.

End ServerProperties.

Section ServerScenarios.
Import Scenario.
#[local] Existing Instance platform.
#[local] Existing Instance server.

(** X18, at an instance: the guest of Scenario A opens the pairing link
    at 10:00, five minutes before the token expires. *)
Lemma pairing_authorizes_the_guest_witness :
  (pair (scan "5f2c9a1e" "::ffff:10.0.20.5") (lobby ten_am)).1
  = Normal (reply 200 (Page (token_fields !! "room")))
  ∧ (∀ t, (t <= clock (lobby ten_am) + 43200000)%Z →
       getRoomForGuest "10.0.20.5"
         (at_time t (pair (scan "5f2c9a1e" "::ffff:10.0.20.5") (lobby ten_am)).2)
       = (Normal (token_fields !! "room"),
          at_time t (pair (scan "5f2c9a1e" "::ffff:10.0.20.5") (lobby ten_am)).2))
  ∧ (∀ t, (clock (lobby ten_am) + 43200000 < t)%Z →
       getRoomForGuest "10.0.20.5"
         (at_time t (pair (scan "5f2c9a1e" "::ffff:10.0.20.5") (lobby ten_am)).2)
       = (Normal null,
          at_time t (pair (scan "5f2c9a1e" "::ffff:10.0.20.5") (lobby ten_am)).2))
  ∧ (∀ b, b ≠ "10.0.20.5" →
       (getRoomForGuest b
          (pair (scan "5f2c9a1e" "::ffff:10.0.20.5") (lobby ten_am)).2).1
       = (getRoomForGuest b (lobby ten_am)).1).
Proof.
  apply (pairing_authorizes_the_guest (H := platform) (H0 := server)
           (scan "5f2c9a1e" "::ffff:10.0.20.5") (lobby ten_am) "10.0.20.5"
           token_store token_fields ∅).
  - reflexivity.
  - reflexivity.
  - vm_compute. reflexivity.
  - vm_compute. reflexivity.
  - vm_compute. reflexivity.
  - vm_compute. reflexivity.
  - discriminate.
  - reflexivity.
  - vm_compute. discriminate.
  - vm_compute. reflexivity.
Defined.


(** X20, at an instance: the token store, after the pairing of
    Scenario A. *)
Lemma pair_touches_only_the_pairings_file_witness :
  files (pair (scan "5f2c9a1e" "10.0.20.5") (lobby ten_am)).2 !! "data/tokens.json"
  = files (lobby ten_am) !! "data/tokens.json"
  ∧ clock (pair (scan "5f2c9a1e" "10.0.20.5") (lobby ten_am)).2 = clock (lobby ten_am)
  ∧ trace (pair (scan "5f2c9a1e" "10.0.20.5") (lobby ten_am)).2 = trace (lobby ten_am).
Proof.
  apply (pair_touches_only_the_pairings_file (H := platform) (H0 := server)
           (scan "5f2c9a1e" "10.0.20.5") (lobby ten_am) "data/tokens.json").
  apply String.eqb_neq. reflexivity.
Defined.

(** X21, at an instance: a second guest opens the link of Scenario A one
    minute after the first. *)
Lemma token_pairs_a_second_guest_witness :
  (pair (scan "5f2c9a1e" "10.0.20.5") (lobby ten_am)).1
  = Normal (reply 200 (Page (token_fields !! "room")))
  ∧ (pair (scan "5f2c9a1e" "10.0.20.6")
       (at_time (ten_am + 60000)
          (pair (scan "5f2c9a1e" "10.0.20.5") (lobby ten_am)).2)).1
    = Normal (reply 200 (Page (token_fields !! "room")))
  ∧ files (pair (scan "5f2c9a1e" "10.0.20.6")
             (at_time (ten_am + 60000)
                (pair (scan "5f2c9a1e" "10.0.20.5") (lobby ten_am)).2)).2
      !! server_pairingsFile
    = Some (Json (JObj
        (<["10.0.20.6" :=
             pairing_record (token_fields !! "room")
               (query_token (scan "5f2c9a1e" "10.0.20.5")) (ten_am + 60000)]>
           (<["10.0.20.5" :=
                pairing_record (token_fields !! "room")
                  (query_token (scan "5f2c9a1e" "10.0.20.5"))
                  (clock (lobby ten_am))]> ∅)))).
Proof.
  apply (token_pairs_a_second_guest (H := platform) (H0 := server)
           (scan "5f2c9a1e" "10.0.20.5") (scan "5f2c9a1e" "10.0.20.6")
           (lobby ten_am) "10.0.20.5" "10.0.20.6" token_store token_fields ∅
           (ten_am + 60000)).
  - apply String.eqb_neq. reflexivity.
  - reflexivity.
  - reflexivity.
  - reflexivity.
  - vm_compute. reflexivity.
  - vm_compute. reflexivity.
  - vm_compute. reflexivity.
  - vm_compute. reflexivity.
  - vm_compute. reflexivity.
  - discriminate.
  - discriminate.
  - reflexivity.
  - vm_compute. discriminate.
  - vm_compute. discriminate.
Defined.

(** X22, at an instance: a token the store does not hold. *)
Lemma unknown_token_is_refused_witness :
  pair (scan "00000000" "10.0.20.5") (lobby ten_am)
  = (Normal (reply 400 (Plain "❌ Invalid pairing code")), lobby ten_am).
Proof.
  apply (unknown_token_is_refused (H := platform) (H0 := server)
           (scan "00000000" "10.0.20.5") (lobby ten_am) "10.0.20.5" token_store).
  - reflexivity.
  - vm_compute. reflexivity.
  - vm_compute. reflexivity.
  - vm_compute. reflexivity.
Defined.

(** X23, at an instance: the link of Scenario A is opened at 10:10, five
    minutes after the token has expired. *)
Lemma expired_token_is_refused_witness :
  pair (scan "5f2c9a1e" "10.0.20.5") (lobby (ten_am + 600000))
  = (Normal (reply 400
               (Plain "❌ Pairing code expired. Please scan a new QR code.")),
     lobby (ten_am + 600000)).
Proof.
  apply (expired_token_is_refused (H := platform) (H0 := server)
           (scan "5f2c9a1e" "10.0.20.5") (lobby (ten_am + 600000)) "10.0.20.5"
           token_store token_fields "2025-12-08T10:05:00.000Z" (ten_am + 300000)).
  - reflexivity.
  - vm_compute. reflexivity.
  - vm_compute. reflexivity.
  - vm_compute. reflexivity.
  - vm_compute. reflexivity.
  - vm_compute. reflexivity.
Defined.

(** X24, at an instance: the hotel has no token file. *)
Lemma unreadable_token_store_is_a_server_error_witness :
  pair (scan "5f2c9a1e" "10.0.20.5") no_tokens
  = (Normal (reply 500 (Plain "Server error")), no_tokens).
Proof.
  apply (unreadable_token_store_is_a_server_error (H := platform) (H0 := server)
           (scan "5f2c9a1e" "10.0.20.5") no_tokens "10.0.20.5").
  - reflexivity.
  - left. vm_compute. reflexivity.
Defined.

(** X25, at an instance: the link is opened with [token=constructor]. *)
Lemma inherited_name_passes_as_token_witness :
  (pair (scan "constructor" "10.0.20.5") (lobby ten_am)).1
  = Normal (reply 200 (Page None))
  ∧ files (pair (scan "constructor" "10.0.20.5") (lobby ten_am)).2
      !! server_pairingsFile
    = Some (Json (JObj
        (<["10.0.20.5" :=
             pairing_record None (query_token (scan "constructor" "10.0.20.5"))
               (clock (lobby ten_am))]> ∅)))
  ∧ get (Some (pairing_record None (query_token (scan "constructor" "10.0.20.5"))
                 (clock (lobby ten_am)))) "room"
    = Normal None
  ∧ ∀ t, ∃ room,
      getRoomForGuest "10.0.20.5"
        (at_time t (pair (scan "constructor" "10.0.20.5") (lobby ten_am)).2)
      = (Normal room,
         at_time t (pair (scan "constructor" "10.0.20.5") (lobby ten_am)).2)
      ∧ truthy room = false.
Proof.
  apply (inherited_name_passes_as_token (H := platform) (H0 := server)
           (scan "constructor" "10.0.20.5") (lobby ten_am) "10.0.20.5"
           token_store ∅).
  - reflexivity.
  - reflexivity.
  - vm_compute. reflexivity.
  - vm_compute. reflexivity.
  - vm_compute. reflexivity.
  - vm_compute. reflexivity.
  - discriminate.
  - reflexivity.
  - vm_compute. discriminate.
Defined.

(** X26, at an instance: the request of Scenario A relayed by a proxy,
    and the same request with no address of the connection at all. *)
Lemma forwarded_header_names_the_guest_witness :
  pair (relayed "5f2c9a1e" "10.0.20.5") (lobby ten_am)
  = pair {| query_token := query_token (relayed "5f2c9a1e" "10.0.20.5");
            x_forwarded_for := Some "10.0.20.5";
            remoteAddress := None |} (lobby ten_am).
Proof.
  apply (forwarded_header_names_the_guest (H := platform) (H0 := server)
           (relayed "5f2c9a1e" "10.0.20.5") "10.0.20.5" None (lobby ten_am)).
  - reflexivity.
  - discriminate.
Defined.

(** X27, at an instance: the guest of Scenario A on a dual-stack
    socket. *)
Lemma mapped_address_is_unwrapped_witness :
  guest_address (scan "5f2c9a1e" "::ffff:10.0.20.5") = Normal "10.0.20.5".
Proof.
  apply (mapped_address_is_unwrapped (scan "5f2c9a1e" "::ffff:10.0.20.5")
           "10.0.20.5").
  - reflexivity.
  - reflexivity.
Defined.

(** X28, at an instance: a token for room 102 is issued at 10:00. *)
Lemma issuing_files_the_token_witness :
  ∃ tokens',
    files (pairing_token "102" "ab12cd34" (lobby ten_am)).2 !! tokensFile
    = Some (Json (JObj tokens'))
    ∧ get (tokens' !! "ab12cd34") "room" = Normal (Some (JStr "102"))
    ∧ get (tokens' !! "ab12cd34") "expires_at"
      = Normal (Some (JStr (toISOString (clock (lobby ten_am) + 900000))))
    ∧ ∀ other, other ≠ "ab12cd34" → tokens' !! other = token_store !! other.
Proof.
  apply (issuing_files_the_token (H := platform) (H0 := server)
           "102" "ab12cd34" (lobby ten_am) token_store).
  - vm_compute. reflexivity.
  - discriminate.
  - reflexivity.
  - vm_compute. discriminate.
Defined.

(** X29, at an instance: a token for room 102 is issued at 10:00 and
    presented by the guest at 10.0.20.6. *)
Lemma issued_token_pairs_for_fifteen_minutes_witness :
  (∀ t, (t <= clock (lobby ten_am) + 900000)%Z → valid_time (t + 43200000) →
     (pair (scan "ab12cd34" "10.0.20.6")
        (at_time t (pairing_token "102" "ab12cd34" (lobby ten_am)).2)).1
     = Normal (reply 200 (Page (Some (JStr "102")))))
  ∧ (∀ t, (clock (lobby ten_am) + 900000 < t)%Z →
       pair (scan "ab12cd34" "10.0.20.6")
         (at_time t (pairing_token "102" "ab12cd34" (lobby ten_am)).2)
       = (Normal (reply 400
                    (Plain "❌ Pairing code expired. Please scan a new QR code.")),
          at_time t (pairing_token "102" "ab12cd34" (lobby ten_am)).2)).
Proof.
  apply (issued_token_pairs_for_fifteen_minutes (H := platform) (H0 := server)
           "102" "ab12cd34" (scan "ab12cd34" "10.0.20.6") (lobby ten_am)
           "10.0.20.6" token_store ∅).
  - apply String.eqb_neq. reflexivity.
  - vm_compute. reflexivity.
  - discriminate.
  - reflexivity.
  - vm_compute. discriminate.
  - vm_compute. reflexivity.
  - reflexivity.
  - reflexivity.
  - discriminate.
  - vm_compute. reflexivity.
  - reflexivity.
Defined.

(** X30, at an instance: the guest of Scenario A is paired at 10:00 and
    asks for receivers at 21:00. *)
Lemma paired_guest_is_answered_witness :
  Forall2 (λ d e, ∃ buf, buildResponse d = Normal buf
                         ∧ e = Send buf (port guest) (address guest))
    (List.filter (in_room (token_fields !! "room")) [tv; tv_102])
    (emitted (handleQuery cast_query guest)
       (at_time (ten_pm - 3600000)
          (pair (scan "5f2c9a1e" "::ffff:10.0.20.5") (lobby ten_am)).2)).
Proof.
  apply (paired_guest_is_answered (H := platform) (H0 := server)
           (scan "5f2c9a1e" "::ffff:10.0.20.5") (lobby ten_am) "10.0.20.5"
           token_store token_fields ∅ cast_query
           (ptr_query "_googlecast._tcp.local") guest [tv; tv_102]
           (ten_pm - 3600000)).
  - reflexivity.
  - reflexivity.
  - vm_compute. reflexivity.
  - vm_compute. reflexivity.
  - vm_compute. reflexivity.
  - vm_compute. reflexivity.
  - discriminate.
  - reflexivity.
  - vm_compute. discriminate.
  - vm_compute. reflexivity.
  - vm_compute. reflexivity.
  - reflexivity.
  - reflexivity.
  - reflexivity.
  - vm_compute. discriminate.
  - vm_compute. reflexivity.
  - repeat constructor; discriminate.
  - repeat constructor; eexists; reflexivity.
Defined.

End ServerScenarios.
